(** * Swissgrid time-series ingestion: the line normalizer, the parallel
      transform, the schema preparer, the bulk loaders and the query service.

    The development embeds [src/ingestion_perf.py], [src/ingestion.py],
    [src/database.py] and [src/main.py].

    Text.  A Python [str] is modelled as a list of characters, a character
    being a code point below 256 (Rocq's [ascii]).  On that range the tables
    below are exactly Python's: the only decimal digits are [0-9], and the
    white space of [str.strip()], of the pattern class [\s] and of
    [str.isspace()] is U+0009..U+000D, U+001C..U+0020, U+0085 and U+00A0. *)

From Stdlib Require Import ZArith QArith Ascii String List Permutation Lia.
From Stdlib Require Import Numbers.DecimalString Sorting.Sorted.
From stdpp Require Import gmap strings list fin_maps.


(** ** Python text and the built-ins the normalizer calls *)

Module Py.

Definition str := list ascii.

Definition lit (s : string) : str := list_ascii_of_string s.

Definition LF : ascii := ascii_of_nat 10.
Definition QUOTE : ascii := ascii_of_nat 34.

Definition ord (c : ascii) : nat := nat_of_ascii c.

Definition chr_eqb (a b : ascii) : bool := Nat.eqb (ord a) (ord b).

Definition between (lo hi n : nat) : bool := Nat.leb lo n && Nat.leb n hi.

(** [Py_UNICODE_ISSPACE]: used by [str.strip()] and by [\s]. *)
Definition isspace (c : ascii) : bool :=
  between 9 13 (ord c) || between 28 32 (ord c)
  || Nat.eqb (ord c) 133 || Nat.eqb (ord c) 160.

(** [Py_ISSPACE]: the C-locale white space [float] strips. *)
Definition c_isspace (c : ascii) : bool :=
  between 9 13 (ord c) || Nat.eqb (ord c) 32.

(** [\d], and the digits [float] reads. *)
Definition isdigit (c : ascii) : bool := between 48 57 (ord c).

(** *** Slicing helpers *)

Fixpoint lstrip_by (p : ascii -> bool) (s : str) : str :=
  match s with
  | c :: s' => if p c then lstrip_by p s' else s
  | [] => []
  end.

Definition rstrip_by (p : ascii -> bool) (s : str) : str :=
  rev (lstrip_by p (rev s)).

Definition strip_by (p : ascii -> bool) (s : str) : str :=
  rstrip_by p (lstrip_by p s).

(** [s.rstrip(chars)], [s.strip()], [s.strip(chars)] for a one-character
    [chars]. *)
Definition rstrip_chr (c : ascii) : str -> str := rstrip_by (chr_eqb c).
Definition strip : str -> str := strip_by isspace.
Definition strip_chr (c : ascii) : str -> str := strip_by (chr_eqb c).

(** [s.split(sep)] for a one-character separator: always at least one
    piece, empty pieces kept. *)
Fixpoint split (sep : ascii) (s : str) : list str :=
  match s with
  | [] => [[]]
  | c :: s' =>
      if chr_eqb c sep then [] :: split sep s'
      else match split sep s' with
           | piece :: pieces => (c :: piece) :: pieces
           | [] => [[c]]
           end
  end.

(** [s.replace(a, b)] for one-character [a] and [b]. *)
Definition replace (a b : ascii) (s : str) : str :=
  map (fun c => if chr_eqb c a then b else c) s.

(** The longest prefix whose characters satisfy [p], and the rest. *)
Fixpoint span (p : ascii -> bool) (s : str) : str * str :=
  match s with
  | c :: s' => if p c then let '(a, b) := span p s' in (c :: a, b) else ([], s)
  | [] => ([], [])
  end.

(** *** Exceptions *)

Inductive exn :=
| ValueError | IndexError | FileNotFoundError
| OperationalError | DatabaseError | OtherException.

Inductive outcome (A : Type) :=
| Returned (a : A)
| Raised (e : exn).
Arguments Returned {A} a.
Arguments Raised {A} e.

#[global] Instance outcome_ret : MRet outcome := fun _ a => Returned a.

#[global] Instance outcome_bind : MBind outcome := fun _ _ k m =>
  match m with
  | Returned a => k a
  | Raised e => Raised e
  end.

(** *** [float(s)]: which texts convert, and which raise [ValueError]

    The normalizer calls [float] only as a check and discards the number, so
    the model is the recognizer of CPython's [PyFloat_FromString]. *)

(** [_PyUnicode_TransformDecimalAndSpaceToASCII]: an all-ASCII text is used
    as it is; otherwise characters below 127 are kept, white space becomes a
    blank, and the first other character becomes [?] and ends the text. *)
Fixpoint transform_decimal_and_space (s : str) : str :=
  match s with
  | [] => []
  | c :: s' =>
      if Nat.ltb (ord c) 127 then c :: transform_decimal_and_space s'
      else if isspace c then " "%char :: transform_decimal_and_space s'
      else ["?"%char]
  end.

Definition to_ascii (s : str) : str :=
  if forallb (fun c => Nat.ltb (ord c) 128) s then s
  else transform_decimal_and_space s.

(** [_Py_string_to_number_with_underscores]: an underscore is dropped when it
    stands between two digits and is an error anywhere else. *)
Fixpoint drop_underscores (prev : ascii) (s : str) : option str :=
  match s with
  | [] => if chr_eqb prev "_" then None else Some []
  | c :: s' =>
      if chr_eqb c "_" then
        if isdigit prev then drop_underscores c s' else None
      else if chr_eqb prev "_" && negb (isdigit c) then None
      else option_map (cons c) (drop_underscores c s')
  end.

Definition with_underscores (s : str) : option str :=
  if existsb (chr_eqb "_") s then drop_underscores (ascii_of_nat 0) s
  else Some s.

Definition skip_sign (s : str) : str :=
  match s with
  | c :: s' => if chr_eqb c "+" || chr_eqb c "-" then s' else s
  | [] => []
  end.

Definition lower (c : ascii) : ascii :=
  if between 65 90 (ord c) then ascii_of_nat (ord c + 32) else c.

(** [case_insensitive_match]: the rest of [s] after the lower-case word
    [w]. *)
Fixpoint match_word (w s : str) : option str :=
  match w, s with
  | [], _ => Some s
  | a :: w', c :: s' => if chr_eqb (lower c) a then match_word w' s' else None
  | _ :: _, [] => None
  end.

(** [_Py_parse_inf_or_nan]: the text left after an optional sign and one of
    [inf], [infinity], [nan] in any letter case. *)
Definition parse_inf_or_nan (s : str) : option str :=
  let s1 := skip_sign s in
  match match_word (lit "inf") s1 with
  | Some r =>
      match match_word (lit "inity") r with
      | Some r' => Some r'
      | None => Some r
      end
  | None => match_word (lit "nan") s1
  end.

(** [_Py_dg_strtod]: the text left after the longest decimal literal
    (sign, digits with an optional point, at least one digit, and an exponent
    that counts only when it has a digit). *)
Definition strtod (s : str) : option str :=
  let s1 := skip_sign s in
  let '(ip, r1) := span isdigit s1 in
  let '(fp, r2) :=
    match r1 with
    | c :: r => if chr_eqb c "." then span isdigit r else ([], r1)
    | [] => ([], r1)
    end in
  match ip, fp with
  | [], [] => None
  | _, _ =>
      match r2 with
      | c :: r =>
          if chr_eqb c "e" || chr_eqb c "E" then
            match span isdigit (skip_sign r) with
            | ([], _) => Some r2
            | (_, r3) => Some r3
            end
          else Some r2
      | [] => Some r2
      end
  end.

(** [PyOS_string_to_double]: a decimal literal first, then inf or nan. *)
Definition string_to_double (s : str) : option str :=
  match strtod s with
  | Some r => Some r
  | None => parse_inf_or_nan s
  end.

(** [float_from_string_inner]: white space is stripped at both ends and the
    literal must use up everything in between. *)
Definition float_from_string_inner (s : str) : bool :=
  match string_to_double (strip_by c_isspace s) with
  | Some [] => true
  | _ => false
  end.

Definition float_accepts (s : str) : bool :=
  match with_underscores (to_ascii s) with
  | Some s' => float_from_string_inner s'
  | None => false
  end.

(** [float(s)], keeping of the result only that there is one. *)
Definition float (s : str) : outcome unit :=
  if float_accepts s then Returned tt else Raised ValueError.

(** *** The pattern of the normalizer

    [re.search(r'(\d{2})\.(\d{2})\.(\d{2})\s+(\d{2}:\d{2}:\d{2})', s)]:
    a match at the leftmost position that has one.  At a fixed position the
    match is unique: [\s+] is greedy and must take the whole run of white
    space, since giving one back leaves white space where [\d] is required. *)

Definition groups : Type := str * str * str * str.

Definition match_time (s : str) : option str :=
  match s with
  | h1 :: h2 :: c1 :: m1 :: m2 :: c2 :: s1 :: s2 :: _ =>
      if isdigit h1 && isdigit h2 && chr_eqb c1 ":" && isdigit m1
         && isdigit m2 && chr_eqb c2 ":" && isdigit s1 && isdigit s2
      then Some [h1; h2; c1; m1; m2; c2; s1; s2]
      else None
  | _ => None
  end.

Definition match_at (s : str) : option groups :=
  match s with
  | d1 :: d2 :: p1 :: m1 :: m2 :: p2 :: y1 :: y2 :: rest =>
      if isdigit d1 && isdigit d2 && chr_eqb p1 "." && isdigit m1
         && isdigit m2 && chr_eqb p2 "." && isdigit y1 && isdigit y2
      then
        match span isspace rest with
        | ([], _) => None
        | (_, rest') =>
            match match_time rest' with
            | Some t => Some ([d1; d2], [m1; m2], [y1; y2], t)
            | None => None
            end
        end
      else None
  | _ => None
  end.

Fixpoint re_search (s : str) : option groups :=
  match match_at s with
  | Some g => Some g
  | None =>
      match s with
      | [] => None
      | _ :: s' => re_search s'
      end
  end.

(** *** [datetime] and [strftime('%Y-%m-%d %H:%M:%S')] *)

Record datetime := {
  year : nat; month : nat; day : nat;
  hour : nat; minute : nat; second : nat
}.

Definition decimal (n : nat) : str :=
  lit (NilZero.string_of_uint (Nat.to_uint n)).

(** [%m], [%d], [%H], [%M], [%S] are zero-padded to two digits, [%Y] to
    four. *)
Definition zero_pad (width n : nat) : str :=
  let d := decimal n in
  repeat "0"%char (width - length d) ++ d.

Definition strftime (dt : datetime) : str :=
  zero_pad 4 (year dt) ++ lit "-" ++ zero_pad 2 (month dt) ++ lit "-"
  ++ zero_pad 2 (day dt) ++ lit " " ++ zero_pad 2 (hour dt) ++ lit ":"
  ++ zero_pad 2 (minute dt) ++ lit ":" ++ zero_pad 2 (second dt).

End Py.

(** ** [src/ingestion_perf.py]: the line normalizer *)

Module Normalizer.
Import Py.

(** The module-level name [ciso8601]: [None] after the failed import (the
    fall-back), or the library, of which the normalizer calls
    [parse_datetime] only. *)
Definition ciso8601_module : Type := option (str -> outcome datetime).

(** [cols[i]] *)
Definition getitem (cols : list str) (i : nat) : outcome str :=
  match nth_error cols i with
  | Some c => Returned c
  | None => Raised IndexError
  end.

(** The body of the [try] statement of [transform_timestamp_fast]. *)
Definition try_block (ciso8601 : ciso8601_module) (line : str)
  : outcome (option str) :=
  let cols := split ";" (rstrip_chr LF line) in
  if Nat.ltb (length cols) 2 then Returned None
  else
    c0 ← getitem cols 0;
    let raw_ts := strip_chr QUOTE (strip c0) in
    c1 ← getitem cols 1;
    let raw_freq := replace "," "." (strip_chr QUOTE (strip c1)) in
    _ ← float raw_freq;
    match re_search raw_ts with
    | None => Returned None
    | Some (day, month, year, time_part) =>
        let full_year := lit "20" ++ year in
        let iso_string :=
          full_year ++ lit "-" ++ month ++ lit "-" ++ day ++ lit " "
          ++ time_part in
        match ciso8601 with
        | Some parse_datetime =>
            dt_obj ← parse_datetime iso_string;
            Returned (Some (strftime dt_obj ++ lit "," ++ raw_freq ++ [LF]))
        | None => Returned (Some (iso_string ++ lit "," ++ raw_freq ++ [LF]))
        end
    end.

(** [transform_timestamp_fast]: the [try] block under its two handlers,
    [except (ValueError, IndexError)] and [except Exception]. *)
Definition transform_timestamp_fast (ciso8601 : ciso8601_module) (line : str)
  : outcome (option str) :=
  match try_block ciso8601 line with
  | Returned r => Returned r
  | Raised ValueError => Returned None
  | Raised IndexError => Returned None
  | Raised _ => Returned None
  end.

(** *** Reading an emitted line back as a row

    The emitted line is [timestamp,value] and a line feed.  [decimal_value]
    is the rational a plain decimal text denotes (no exponent, no inf or
    nan); [float] rounds it to the nearest double. *)

Definition digit_value (c : ascii) : Z := Z.of_nat (ord c - 48).

Fixpoint digits_value (acc : Z) (s : str) : Z :=
  match s with
  | [] => acc
  | c :: s' => digits_value (10 * acc + digit_value c) s'
  end.

Definition decimal_value (s : str) : option Q :=
  let neg := match s with c :: _ => chr_eqb c "-" | [] => false end in
  let '(ip, r1) := span isdigit (skip_sign s) in
  let '(fp, r2) :=
    match r1 with
    | c :: r => if chr_eqb c "." then span isdigit r else ([], r1)
    | [] => ([], r1)
    end in
  match ip ++ fp, r2 with
  | _ :: _, [] =>
      let m := digits_value 0 (ip ++ fp) in
      Some (Qmake (if neg then - m else m)
                  (Z.to_pos (10 ^ Z.of_nat (length fp))))
  | _, _ => None
  end.

(** [line.rstrip(LF).split(',')] read as (timestamp text, value). *)
Definition row_of_line (out : str) : option (str * Q) :=
  match split "," (rstrip_chr LF out) with
  | [ts; v] => option_map (fun q => (ts, Qred q)) (decimal_value v)
  | _ => None
  end.

(** The layout [20YY-MM-DD HH:MM:SS] with decimal digits in every field. *)
Definition canonical_layout (ts : str) : bool :=
  match ts with
  | [c1; c2; y1; y2; p1; m1; m2; p2; d1; d2; sp; h1; h2; q1; n1; n2; q2;
     s1; s2] =>
      chr_eqb c1 "2" && chr_eqb c2 "0" && isdigit y1 && isdigit y2
      && chr_eqb p1 "-" && isdigit m1 && isdigit m2 && chr_eqb p2 "-"
      && isdigit d1 && isdigit d2 && chr_eqb sp " " && isdigit h1
      && isdigit h2 && chr_eqb q1 ":" && isdigit n1 && isdigit n2
      && chr_eqb q2 ":" && isdigit s1 && isdigit s2
  | _ => false
  end.

(** The character [c] does not occur in [s]. *)
Definition no_chr (c : ascii) (s : str) : Prop :=
  Forall (fun x => chr_eqb x c = false) s.

(** The timestamp text of an emitted line: the text built from the matched
    fields, or its rendering by [ciso8601] when that is installed. *)
Definition emitted_timestamp (ciso8601 : ciso8601_module) (ts : str) : Prop :=
  match ciso8601 with
  | None => canonical_layout ts = true
  | Some parse_datetime =>
      exists iso dt, canonical_layout iso = true
                     /\ parse_datetime iso = Returned dt /\ ts = strftime dt
  end.

(** The result of the normalizer as the coordinator receives it. *)
Definition normalize (ciso8601 : ciso8601_module) (line : str) : option str :=
  match transform_timestamp_fast ciso8601 line with
  | Returned r => r
  | Raised _ => None
  end.

Definition accepted (ciso8601 : ciso8601_module) (line : str) : bool :=
  match transform_timestamp_fast ciso8601 line with
  | Returned (Some _) => true
  | _ => false
  end.

Definition rejected (ciso8601 : ciso8601_module) (line : str) : bool :=
  match transform_timestamp_fast ciso8601 line with
  | Returned None => true
  | _ => false
  end.

(** What [ciso8601] makes of a text, when it is installed. *)
Definition parses (ciso8601 : ciso8601_module) (iso : str) (dt : datetime)
  : Prop :=
  match ciso8601 with
  | Some parse_datetime => parse_datetime iso = Returned dt
  | None => True
  end.

End Normalizer.

(** ** The data-model invariant of a normalized row, in the words of the
       specification *)

Module Spec.
Import Py.



End Spec.

(** ** [src/ingestion_perf.py]: the worker pool and the transform phase *)

Module Pool.
Import Py Normalizer.

(** [Pool._get_tasks]: the input cut into consecutive tasks of [chunksize]
    items, the last one possibly shorter. *)
Fixpoint get_tasks_aux {A} (fuel chunksize : nat) (l : list A)
  : list (list A) :=
  match fuel with
  | O => []
  | S fuel' =>
      match l with
      | [] => []
      | _ :: _ =>
          take chunksize l :: get_tasks_aux fuel' chunksize (drop chunksize l)
      end
  end.

Definition get_tasks {A} (chunksize : nat) (l : list A) : list (list A) :=
  get_tasks_aux (length l) chunksize l.

(** [mapstar]: a worker runs one task; an exception fails the whole task. *)
Fixpoint mapstar {A B} (func : A -> outcome B) (task : list A)
  : outcome (list B) :=
  match task with
  | [] => Returned []
  | x :: task' => y ← func x; ys ← mapstar func task'; Returned (y :: ys)
  end.

(** The orders in which a pool of [processes] workers may hand back
    [ntasks] tasks: each task once; a single worker hands them back in the
    order it was given them. *)
Definition completion_order (processes ntasks : nat) (order : list nat)
  : Prop :=
  1 <= processes
  /\ Permutation order (seq 0 ntasks)
  /\ (processes = 1 -> order = seq 0 ntasks).

(** [pool.imap_unordered(func, iterable, chunksize)]: the results of the
    tasks, task by task, in the order [order] in which the tasks complete. *)
Definition imap_unordered {A B} (order : list nat) (func : A -> outcome B)
    (iterable : list A) (chunksize : nat) : outcome (list (outcome (list B))) :=
  if Nat.ltb chunksize 1 then Raised ValueError
  else
    let tasks := get_tasks chunksize iterable in
    Returned (map (mapstar func) (omap (fun i => tasks !! i) order)).

(** [for i, result in enumerate(results): transformed_lines.append(result)]:
    the loop stops at the first task that raises.  The progress line it
    writes is left out. *)
Fixpoint collect {B} (results : list (outcome (list B))) : outcome (list B) :=
  match results with
  | [] => Returned []
  | r :: results' => items ← r; more ← collect results'; Returned (items ++ more)
  end.

(** Step 3 of [ingest_parallel], up to the counts: the cleaned lines,
    [cleaned_count] and [skipped_count]. *)
Definition transform_phase (ciso8601 : ciso8601_module) (order : list nat)
    (lines : list str) : outcome (list str * nat * Z) :=
  let total_rows := length lines in
  results ← imap_unordered order (transform_timestamp_fast ciso8601) lines 1000;
  transformed_lines ← collect results;
  let cleaned_lines := omap id transformed_lines in
  let cleaned_count := length cleaned_lines in
  let skipped_count := (Z.of_nat total_rows - Z.of_nat cleaned_count)%Z in
  Returned (cleaned_lines, cleaned_count, skipped_count).

End Pool.

(** ** The sink: PostgreSQL with TimescaleDB behind a [psycopg2] connection

    A relation is keyed by its timestamp column, an instant counted in
    microseconds from 2000-01-01 00:00:00 UTC; [V] is the type of the values
    of its frequency column.  The world holds the committed database, the
    database as the open transaction sees it, whether that transaction has
    failed, which of the coming connection attempts reach the server, and
    the trace of what the program did to the sink. *)

Module Store.
Import Py.

Inductive statement :=
| DROP_TABLE_IF_EXISTS (t : string)
| CREATE_TABLE (t : string)
| CREATE_HYPERTABLE (t : string) (if_not_exists : bool)
| TRUNCATE (t : string)
| COPY (t : string)
| INSERT_ON_CONFLICT_DO_NOTHING (t : string).

Inductive event :=
| Connect (ok : bool)
| Sleep (seconds : nat)
| Execute (s : statement)
| Commit
| Rollback
| Close
| PoolStart (processes : nat).

Section Store.
Context {V : Type}.

Record table := { hypertable : bool; rows : gmap Z V }.

(** [upcoming] lists, attempt by attempt, whether the server accepts the
    connection; once the list is used up every attempt is refused. *)
Record world := {
  upcoming : list bool;
  committed : gmap string table;
  pending : gmap string table;
  aborted : bool;
  trace : list event
}.

(** Programs on the world that may raise. *)
Definition io (A : Type) : Type := world -> outcome A * world.

#[global] Instance io_ret : MRet io := fun _ a w => (Returned a, w).

#[global] Instance io_bind : MBind io := fun _ _ k m w =>
  match m w with
  | (Returned a, w') => k a w'
  | (Raised e, w') => (Raised e, w')
  end.

Definition raise {A} (e : exn) : io A := fun w => (Raised e, w).

Definition lift {A} (r : outcome A) : io A := fun w => (r, w).

(** [try: m except Exception as e: handler e] *)
Definition try_except {A} (m : io A) (handler : exn -> io A) : io A :=
  fun w =>
    match m w with
    | (Returned a, w') => (Returned a, w')
    | (Raised e, w') => handler e w'
    end.

(** [try: m finally: f] *)
Definition try_finally {A} (m : io A) (f : io unit) : io A :=
  fun w =>
    match m w with
    | (r, w') =>
        match f w' with
        | (Returned _, w'') => (r, w'')
        | (Raised e, w'') => (Raised e, w'')
        end
    end.

Definition log (e : event) : io unit := fun w =>
  (Returned tt,
   {| upcoming := upcoming w; committed := committed w; pending := pending w;
      aborted := aborted w; trace := trace w ++ [e] |}).

(** One connection attempt: it uses up the head of [upcoming]; a new
    connection sees the committed database. *)
Definition connect : io unit := fun w =>
  let ok := match upcoming w with b :: _ => b | [] => false end in
  (if ok then Returned tt else Raised OperationalError,
   {| upcoming := tail (upcoming w); committed := committed w;
      pending := committed w; aborted := false;
      trace := trace w ++ [Connect ok] |}).

(** *** What a statement does to the database; [None] is an error *)

(** [COPY ... FROM STDIN]: every record is read by [sink_row] and inserted;
    a record the sink cannot read, or a timestamp that is already there,
    makes the statement fail. *)
Fixpoint copy_rows (sink_row : str -> option (Z * V)) (t : gmap Z V)
    (records : list str) : option (gmap Z V) :=
  match records with
  | [] => Some t
  | r :: records' =>
      match sink_row r with
      | None => None
      | Some (k, v) =>
          match t !! k with
          | Some _ => None
          | None => copy_rows sink_row (<[k := v]> t) records'
          end
      end
  end.

(** [INSERT ... VALUES ... ON CONFLICT (timestamp) DO NOTHING] *)
Fixpoint insert_do_nothing (t : gmap Z V) (values : list (Z * V)) : gmap Z V :=
  match values with
  | [] => t
  | (k, v) :: values' =>
      match t !! k with
      | Some _ => insert_do_nothing t values'
      | None => insert_do_nothing (<[k := v]> t) values'
      end
  end.

Definition with_rows (tb : table) (r : gmap Z V) : table :=
  {| hypertable := hypertable tb; rows := r |}.

(** The data-definition statements.  [CREATE TABLE] fails on a relation that
    exists; [create_hypertable] fails on a relation that is missing or holds
    rows, and on a hypertable unless [if_not_exists] is set; [TRUNCATE]
    empties the relation and keeps it a hypertable; [DROP TABLE] removes the
    relation together with its registration as a hypertable. *)
Definition apply_ddl (s : statement) (d : gmap string table)
  : option (gmap string table) :=
  match s with
  | DROP_TABLE_IF_EXISTS t => Some (delete t d)
  | CREATE_TABLE t =>
      match d !! t with
      | Some _ => None
      | None => Some (<[t := {| hypertable := false; rows := ∅ |}]> d)
      end
  | CREATE_HYPERTABLE t if_not_exists =>
      match d !! t with
      | None => None
      | Some tb =>
          if hypertable tb then (if if_not_exists then Some d else None)
          else if decide (rows tb = ∅)
               then Some (<[t := {| hypertable := true; rows := rows tb |}]> d)
               else None
      end
  | TRUNCATE t =>
      match d !! t with
      | None => None
      | Some tb => Some (<[t := with_rows tb ∅]> d)
      end
  | COPY _ | INSERT_ON_CONFLICT_DO_NOTHING _ => Some d
  end.

(** A statement runs in the open transaction.  When it fails, or when the
    transaction has already failed, it raises and the transaction stays
    failed until it is rolled back. *)
Definition run_statement (s : statement)
    (effect : gmap string table -> option (gmap string table)) : io unit :=
  fun w =>
    let w' := {| upcoming := upcoming w; committed := committed w;
                 pending := pending w; aborted := aborted w;
                 trace := trace w ++ [Execute s] |} in
    match (if aborted w then None else effect (pending w)) with
    | Some d =>
        (Returned tt,
         {| upcoming := upcoming w'; committed := committed w'; pending := d;
            aborted := false; trace := trace w' |})
    | None =>
        (Raised DatabaseError,
         {| upcoming := upcoming w'; committed := committed w';
            pending := pending w'; aborted := true; trace := trace w' |})
    end.

(** [cur.execute(sql)] for the data-definition statements. *)
Definition execute (s : statement) : io unit := run_statement s (apply_ddl s).

(** [cur.copy_expert("COPY t (timestamp, frequency) FROM STDIN ...", data)] *)
Definition copy_expert (sink_row : str -> option (Z * V)) (t : string)
    (records : list str) : io unit :=
  run_statement (COPY t) (fun d =>
    tb ← d !! t;
    r ← copy_rows sink_row (rows tb) records;
    Some (<[t := with_rows tb r]> d)).

(** [execute_values(cursor, "INSERT ... ON CONFLICT (timestamp) DO NOTHING",
    values)] *)
Definition execute_values (t : string) (values : list (Z * V)) : io unit :=
  run_statement (INSERT_ON_CONFLICT_DO_NOTHING t) (fun d =>
    tb ← d !! t;
    Some (<[t := with_rows tb (insert_do_nothing (rows tb) values)]> d)).

(** [conn.commit()]: a failed transaction is ended without effect. *)
Definition commit : io unit := fun w =>
  let d := if aborted w then committed w else pending w in
  (Returned tt,
   {| upcoming := upcoming w; committed := d; pending := d; aborted := false;
      trace := trace w ++ [Commit] |}).

Definition rollback : io unit := fun w =>
  (Returned tt,
   {| upcoming := upcoming w; committed := committed w;
      pending := committed w; aborted := false;
      trace := trace w ++ [Rollback] |}).

(** [conn.close()]: work that was not committed is lost. *)
Definition close : io unit := fun w =>
  (Returned tt,
   {| upcoming := upcoming w; committed := committed w;
      pending := committed w; aborted := false;
      trace := trace w ++ [Close] |}).

(** [SELECT EXISTS (SELECT FROM pg_tables WHERE ... tablename = %s)] *)
Definition table_exists (t : string) : io bool := fun w =>
  (Returned (bool_decide (is_Some (pending w !! t))), w).

(** The count of the rows of [timescaledb_information.hypertables] with
    this [hypertable_name], compared with 0. *)
Definition is_hypertable (t : string) : io bool := fun w =>
  (Returned (match pending w !! t with
             | Some tb => hypertable tb
             | None => false
             end), w).

End Store.

Arguments table : clear implicits.
Arguments world : clear implicits.
Arguments io : clear implicits.

End Store.

(** ** [src/database.py] *)

Module Database.
Import Py Store.

Section Database.
Context {V : Type}.

(** [get_db_connection]: one call of [psycopg2.connect]; an
    [OperationalError] is caught and [None] is returned.  The result here is
    whether there is a connection. *)
Definition get_db_connection : io V bool :=
  try_except (connect;; mret true)
    (fun e => match e with
              | OperationalError => mret false
              | _ => raise e
              end).

End Database.
End Database.

(** ** [src/ingestion_perf.py]: the schema preparer and the coordinator *)

Module IngestionPerf.
Import Py Normalizer Pool Store Database.

Section IngestionPerf.
Context {V : Type}.

(** How the sink reads one record of the [COPY] stream, a line
    [timestamp,value]: the key and the value of the row, or [None] when the
    sink refuses the record.  Every cleaned line is one record: a line that
    [readlines] returns has its only line feed at its end and an accepted
    value holds no quote. *)
Variable sink_row : str -> option (Z * V).

Definition ensure_table_and_hypertable (table_name : string)
    (clear_data : bool) : io V unit :=
  table_exists ← table_exists table_name;
  (if negb table_exists
   then execute (CREATE_TABLE table_name);; commit
   else mret tt);;
  is_hypertable ← is_hypertable table_name;
  (if negb is_hypertable
   then
     try_except (execute (CREATE_HYPERTABLE table_name true))
       (fun e => match e with
                 | DatabaseError =>
                     execute (CREATE_HYPERTABLE table_name false)
                 | _ => raise e
                 end);;
     commit
   else mret tt);;
  if clear_data
  then execute (TRUNCATE table_name);; commit
  else mret tt.

(** [open(input_path).readlines()]: [None] is a path with no file. *)
Definition readlines (file : option (list str)) : io V (list str) :=
  match file with
  | Some lines => mret lines
  | None => raise FileNotFoundError
  end.

(** [ingest_parallel(input_path, table_name)].  [ciso8601] is the optional
    parser found at import time, [num_cpus] is [cpu_count()] and [order] is
    the order in which the tasks of the pool complete. *)
Definition ingest_parallel (ciso8601 : ciso8601_module) (num_cpus : nat)
    (order : list nat) (file : option (list str)) (table_name : string)
  : io V unit :=
  conn ← get_db_connection;
  if negb conn then mret tt
  else
    try_finally
      (try_except
         (ensure_table_and_hypertable table_name true;;
          all_lines ← readlines file;
          let lines := drop 1 all_lines in
          let total_rows := length lines in
          if Nat.eqb total_rows 0 then close
          else
            log (PoolStart num_cpus);;
            '(cleaned_lines, cleaned_count, skipped_count) ←
              lift (transform_phase ciso8601 order lines);
            copy_expert sink_row table_name cleaned_lines;;
            commit)
         (fun _ => try_except rollback (fun _ => mret tt)))
      close.

End IngestionPerf.
End IngestionPerf.

(** ** [src/ingestion.py] *)

Module Ingestion.
Import Py Store Database.

Section Ingestion.
Context {V : Type}.

(** What [pandas] makes of the file: the (timestamp, frequency) tuples of
    [data_to_insert], after [read_csv], [to_datetime] with
    [errors='coerce'], the renaming and [dropna]; or the exception raised on
    the way. *)
Variable data_to_insert : option (list str) -> outcome (list (Z * V)).

Definition swissgrid_frequency_data : string := "swissgrid_frequency_data".

Definition ingest_data (file_path : option (list str)) : io V unit :=
  conn ← get_db_connection;
  if negb conn then mret tt
  else
    try_finally
      (try_except
         (execute (DROP_TABLE_IF_EXISTS swissgrid_frequency_data);;
          commit;;
          execute (CREATE_TABLE swissgrid_frequency_data);;
          commit;;
          is_hypertable ← is_hypertable swissgrid_frequency_data;
          (if negb is_hypertable
           then execute (CREATE_HYPERTABLE swissgrid_frequency_data false);;
                commit
           else mret tt);;
          values ← lift (data_to_insert file_path);
          execute_values swissgrid_frequency_data values;;
          commit)
         (fun _ => rollback))
      close.

End Ingestion.
End Ingestion.

(** ** [src/main.py]: the query service *)

Module Main.
Import Py Store.

Inductive TableName :=
| swissgrid_frequency_data | volume_frequency_data | stresstest_frequency_data.

Definition TableName_value (t : TableName) : string :=
  match t with
  | swissgrid_frequency_data => "swissgrid_frequency_data"
  | volume_frequency_data => "volume_frequency_data"
  | stresstest_frequency_data => "stresstest_frequency_data"
  end.

Inductive Resolution :=
| ms1 | s1 | s15 | s30 | m1 | m5 | m10 | m15 | m30 | h1 | h6 | d1.

(** The interval a resolution denotes, in microseconds. *)
Definition Resolution_interval (r : Resolution) : Z :=
  match r with
  | ms1 => 1000
  | s1 => 1000000
  | s15 => 15000000
  | s30 => 30000000
  | m1 => 60000000
  | m5 => 300000000
  | m10 => 600000000
  | m15 => 900000000
  | m30 => 1800000000
  | h1 => 3600000000
  | h6 => 21600000000
  | d1 => 86400000000
  end.

(** What a handler answers: the body with status 200, or the status code of
    the [HTTPException] it raises. *)
Inductive response (A : Type) :=
| OK (body : A)
| HTTPException (status_code : nat).
Arguments OK {A} body.
Arguments HTTPException {A} status_code.

Section Main.
Context {V : Type}.

(** [get_async_db_pool]: the loop over [range(1, retries + 1)], [remaining]
    being the iterations left.  The result is the pool, or [None] when the
    loop runs out. *)
Fixpoint connect_loop (retries delay attempt remaining : nat)
  : io V (option unit) :=
  match remaining with
  | O => mret None
  | S remaining' =>
      try_except (connect;; mret (Some tt))
        (fun e =>
           if Nat.eqb attempt retries then raise e
           else log (Sleep delay);;
                connect_loop retries delay (S attempt) remaining')
  end.

Definition get_async_db_pool : io V (option unit) :=
  let retries := 5 in
  let delay := 5 in
  connect_loop retries delay 1 retries.

(** [datetime.fromisoformat(text).astimezone(timezone.utc)], as an instant;
    [ValueError] for a text that is not ISO 8601. *)
Variable fromisoformat : str -> outcome Z.

(** [AVG(frequency)] over the values of one bucket. *)
Variable AVG : list V -> V.

(** [text.replace('Z', '+00:00')] *)
Definition replace_Z (text : str) : str :=
  flat_map (fun c => if chr_eqb c "Z" then lit "+00:00" else [c]) text.

Definition parse_time (text : str) : outcome Z := fromisoformat (replace_Z text).

(** [ORDER BY] a first column of instants. *)
Fixpoint insert_by_key {A} (x : Z * A) (l : list (Z * A)) : list (Z * A) :=
  match l with
  | [] => [x]
  | y :: l' =>
      if (fst x <=? fst y)%Z then x :: l else y :: insert_by_key x l'
  end.

Definition order_by_key {A} (l : list (Z * A)) : list (Z * A) :=
  foldr insert_by_key [] l.

(** [WHERE timestamp >= $1 AND timestamp <= $2] *)
Definition in_range (start_dt end_dt : Z) (row : Z * V) : bool :=
  (start_dt <=? fst row)%Z && (fst row <=? end_dt)%Z.

(** [conn.fetch] of the range query on a committed database: a relation
    that is not there is a [PostgresError]. *)
Definition fetch_range (db : gmap string (table V)) (t : string)
    (start_dt end_dt : Z) : outcome (list (Z * V)) :=
  match db !! t with
  | None => Raised DatabaseError
  | Some tb =>
      Returned (order_by_key
                  (filter (fun row => in_range start_dt end_dt row = true)
                     (map_to_list (rows tb))))
  end.

(** [time_bucket(interval, timestamp)]: the start of the bucket, buckets
    being aligned on 2000-01-03 00:00:00 UTC. *)
Definition bucket_origin : Z := 172800000000.

Definition time_bucket (interval ts : Z) : Z :=
  (bucket_origin + interval * ((ts - bucket_origin) / interval))%Z.

(** [GROUP BY bucket ORDER BY bucket] *)
Fixpoint group_insert (b : Z) (v : V) (groups : list (Z * list V))
  : list (Z * list V) :=
  match groups with
  | [] => [(b, [v])]
  | (b', vs) :: groups' =>
      if (b =? b')%Z then (b', v :: vs) :: groups'
      else if (b <? b')%Z then (b, [v]) :: groups
      else (b', vs) :: group_insert b v groups'
  end.

Definition group_by_bucket (interval : Z) (records : list (Z * V))
  : list (Z * list V) :=
  foldr (fun row => group_insert (time_bucket interval (fst row)) (snd row))
    [] records.

Definition fetch_buckets (db : gmap string (table V)) (t : string)
    (interval start_dt end_dt : Z) : outcome (list (Z * V)) :=
  records ← fetch_range db t start_dt end_dt;
  Returned (map (fun g => (fst g, AVG (snd g)))
              (group_by_bucket interval records)).

Definition is_empty {A} (l : list A) : bool :=
  match l with [] => true | _ :: _ => false end.

Definition get_raw_data (db : gmap string (table V)) (table_name : TableName)
    (start_time end_time : str) : response (list (Z * V)) :=
  let clean_table_name := TableName_value table_name in
  match parse_time start_time, parse_time end_time with
  | Returned start_dt, Returned end_dt =>
      match fetch_range db clean_table_name start_dt end_dt with
      | Returned records =>
          if is_empty records then HTTPException 404 else OK records
      | Raised _ => HTTPException 500
      end
  | _, _ => HTTPException 400
  end.

Definition get_aggregated_data (db : gmap string (table V))
    (table_name : TableName) (start_time end_time : str)
    (resolution : Resolution) : response (list (Z * V)) :=
  let clean_table_name := TableName_value table_name in
  let resolution_value := Resolution_interval resolution in
  match parse_time start_time, parse_time end_time with
  | Returned start_dt, Returned end_dt =>
      match fetch_buckets db clean_table_name resolution_value
              start_dt end_dt with
      | Returned records =>
          if is_empty records then HTTPException 404 else OK records
      | Raised _ => HTTPException 500
      end
  | _, _ => HTTPException 400
  end.

End Main.
End Main.

(** ** A sink for the examples: a session in UTC that stores the value text *)

Module UtcSink.
Import Py Normalizer.

(** Days from 1970-01-01 to the given civil date. *)
Definition days_from_civil (y m d : Z) : Z :=
  let y' := if (m <=? 2)%Z then (y - 1)%Z else y in
  let era := (y' / 400)%Z in
  let yoe := (y' - era * 400)%Z in
  let mp := if (m >? 2)%Z then (m - 3)%Z else (m + 9)%Z in
  let doy := ((153 * mp + 2) / 5 + d - 1)%Z in
  let doe := (yoe * 365 + yoe / 4 - yoe / 100 + doy)%Z in
  (era * 146097 + doe - 719468)%Z.

Definition is_leap (y : Z) : bool :=
  ((y mod 4 =? 0) && negb (y mod 100 =? 0) || (y mod 400 =? 0))%Z.

Definition days_in_month (y m : Z) : Z :=
  if (m =? 2)%Z then (if is_leap y then 29 else 28)
  else if ((m =? 4) || (m =? 6) || (m =? 9) || (m =? 11))%Z then 30
  else 31.

Definition field (s : str) (from len : nat) : Z :=
  digits_value 0 (take len (drop from s)).

(** The instant of a timestamp text in the canonical layout, read in UTC;
    [None] for a date or a time of day that does not exist. *)
Definition timestamptz_in (ts : str) : option Z :=
  if canonical_layout ts then
    let y := field ts 0 4 in
    let m := field ts 5 2 in
    let d := field ts 8 2 in
    let h := field ts 11 2 in
    let n := field ts 14 2 in
    let s := field ts 17 2 in
    if ((1 <=? m) && (m <=? 12) && (1 <=? d) && (d <=? days_in_month y m)
        && (h <=? 23) && (n <=? 59) && (s <=? 59))%Z
    then Some (((days_from_civil y m d - 10957) * 86400
                + h * 3600 + n * 60 + s) * 1000000)%Z
    else None
  else None.

(** One record [timestamp,value]: the value text is stored as it is when
    [float] reads it. *)
Definition sink_row (record : str) : option (Z * str) :=
  match split "," (rstrip_chr LF record) with
  | [ts; v] =>
      if float_accepts v then option_map (fun k => (k, v)) (timestamptz_in ts)
      else None
  | _ => None
  end.

End UtcSink.

(** ** Inputs of the examples *)

Module Examples.
Import Py.

Definition header : str := lit "Datum Zeit;A:f_soll_aktiv [Hz]" ++ [LF].

Definition line1 : str := lit "Sa. 01.05.21 00:00:00;50".
Definition line2 : str := lit "Sa. 01.05.21 00:00:01;50,5".
Definition line3 : str := lit "garbage;xx".

(** The scenario of the specification as a file. *)
Definition scenario_file : list str :=
  [header; line1 ++ [LF]; line2 ++ [LF]; line3 ++ [LF]].

(** A file whose two data lines carry the same timestamp. *)
Definition duplicate_file : list str :=
  [header; line1 ++ [LF]; line1 ++ [LF]].

(** 1001 data lines, one per second: two tasks for the pool. *)
Definition line_at (i : nat) : str :=
  lit "Sa. 01.05.21 " ++ zero_pad 2 (i / 3600) ++ lit ":"
  ++ zero_pad 2 (i / 60 mod 60) ++ lit ":" ++ zero_pad 2 (i mod 60)
  ++ lit ";50" ++ [LF].

Definition long_file : list str := header :: map line_at (seq 0 1001).

(** The relation of the examples. *)
Definition target : string := "swissgrid_frequency_data".

(** A sink with no relation yet. *)
Definition fresh_world (upcoming : list bool) : Store.world str :=
  {| Store.upcoming := upcoming; Store.committed := ∅; Store.pending := ∅;
     Store.aborted := false; Store.trace := [] |}.

(** A sink where the relation exists, is a hypertable and holds one row. *)
Definition stored : gmap string (Store.table str) :=
  {[ target := {| Store.hypertable := true;
                  Store.rows := {[ 0%Z := lit "50" ]} |} ]}.

Definition stored_world (upcoming : list bool) : Store.world str :=
  {| Store.upcoming := upcoming; Store.committed := stored;
     Store.pending := stored; Store.aborted := false; Store.trace := [] |}.

(** A relation of the query service with two rows, at 2021-05-01 00:00:00
    and one second later. *)
Definition measured : gmap string (Store.table Q) :=
  {[ target := {| Store.hypertable := true;
                  Store.rows := {[ 673142400000000%Z := 50 # 1;
                                   673142401000000%Z := 101 # 2 ]} |} ]}.

(** [fromisoformat] on texts [YYYY-MM-DDTHH:MM:SS+00:00]. *)
Definition fromisoformat_utc (text : str) : outcome Z :=
  match text with
  | y1 :: y2 :: y3 :: y4 :: p1 :: m1 :: m2 :: p2 :: d1 :: d2 :: sep :: rest =>
      if chr_eqb sep "T"
         && bool_decide (drop 8 rest = lit "+00:00")
      then
        match UtcSink.timestamptz_in
                ([y1; y2; y3; y4; p1; m1; m2; p2; d1; d2; " "%char]
                 ++ take 8 rest) with
        | Some k => Returned k
        | None => Raised ValueError
        end
      else Raised ValueError
  | _ => Raised ValueError
  end.

(** The mean of rationals. *)
Definition mean (vs : list Q) : Q :=
  Qred (fold_right Qplus (0 # 1) vs / inject_Z (Z.of_nat (length vs)))%Q.

(** The file of [ingest_data] with its header alone, of which [pandas]
    makes no row. *)
Definition no_rows (file : option (list str)) : outcome (list (Z * str)) :=
  Returned [].

End Examples.

(** ** Notions used to state what the coordinator leaves behind *)

Module Facts.
Import Py Normalizer Store.

Section Facts.
Context {V : Type}.

(** A world between transactions whose database is [d]. *)
Definition clean (w : world V) (d : gmap string (table V)) : Prop :=
  committed w = d /\ pending w = d /\ aborted w = false.

(** The one state on which the schema preparer fails: the relation exists,
    holds rows and is not a hypertable, so that [create_hypertable] is
    refused. *)
Definition preparer_fails (d : gmap string (table V)) (t : string) : bool :=
  match d !! t with
  | Some tb => negb (hypertable tb) && negb (bool_decide (rows tb = ∅))
  | None => false
  end.

(** The rows a run of [ingest_parallel] over a file loads: those of the
    accepted data lines when [COPY] takes them all, none otherwise. *)
Definition loaded_rows (sink_row : str -> option (Z * V))
    (ciso8601 : ciso8601_module) (file : option (list str)) : gmap Z V :=
  match file with
  | Some all_lines =>
      match copy_rows sink_row ∅ (omap (normalize ciso8601) (drop 1 all_lines))
      with
      | Some r => r
      | None => ∅
      end
  | None => ∅
  end.

(** The database a run of [ingest_parallel] leaves, from the database [d]
    it finds, when it gets its connection. *)
Definition after_ingest_parallel (sink_row : str -> option (Z * V))
    (ciso8601 : ciso8601_module) (file : option (list str)) (t : string)
    (d : gmap string (table V)) : gmap string (table V) :=
  if preparer_fails d t then d
  else <[t := {| hypertable := true;
                 rows := loaded_rows sink_row ciso8601 file |}]> d.

(** The database a run of [ingest_data] leaves when it gets its
    connection: the relation is new, a hypertable, and holds the values of
    the file, the first one of each timestamp. *)
Definition after_ingest_data (values : outcome (list (Z * V)))
    (d : gmap string (table V)) : gmap string (table V) :=
  <["swissgrid_frequency_data"%string :=
      {| hypertable := true;
         rows := match values with
                 | Returned vs => insert_do_nothing ∅ vs
                 | Raised _ => ∅
                 end |}]> d.

(** Every event a program adds to the trace satisfies [P]. *)
Definition emits {A} (P : event -> Prop) (m : io V A) : Prop :=
  forall w r w', m w = (r, w') ->
                 exists evs, trace w' = trace w ++ evs /\ Forall P evs.

(** An event that is neither a connection attempt nor the execution of a
    [DROP TABLE]. *)
Definition quiet (e : event) : Prop :=
  match e with
  | Connect _ => False
  | Execute (DROP_TABLE_IF_EXISTS _) => False
  | _ => True
  end.

(** [k] failed connection attempts of the query service, each followed by
    its pause. *)
Definition failed_attempts (k : nat) : list event :=
  concat (repeat [Connect false; Sleep 5] k).

(** Among the first [budget] connection attempts, the number of failures
    before the first success; [None] when they all fail. *)
Fixpoint first_success (budget : nat) (attempts : list bool) : option nat :=
  match budget with
  | O => None
  | S budget' =>
      match attempts with
      | true :: _ => Some 0
      | false :: attempts' => S <$> first_success budget' attempts'
      | [] => None
      end
  end.

(** The relation holds a row whose timestamp lies in the closed range. *)
Definition range_has_row (tb : table V) (start_dt end_dt : Z) : Prop :=
  exists k v, rows tb !! k = Some v /\ (start_dt <= k <= end_dt)%Z.

(** The orders in which the tasks of a run over [file] may complete. *)
Definition run_order (processes : nat) (file : option (list str))
    (order : list nat) : Prop :=
  match file with
  | Some all_lines =>
      Pool.completion_order processes
        (length (Pool.get_tasks 1000 (drop 1 all_lines))) order
  | None => True
  end.

End Facts.
End Facts.

(** ** Notions used to state further properties of the normalizer *)

Module Layout.
Import Py Normalizer.

(** A field of [n] decimal digits. *)
Definition digits (n : nat) (s : str) : Prop :=
  length s = n /\ Forall (fun c => isdigit c = true) s.

(** The timestamp text of the source file, [DD.MM.YY], white space,
    [HH:MM:SS]. *)
Definition source_timestamp (day month year ws hh mm ss : str) : str :=
  day ++ lit "." ++ month ++ lit "." ++ year ++ ws
  ++ hh ++ lit ":" ++ mm ++ lit ":" ++ ss.

(** The text the normalizer builds from the fields. *)
Definition iso_timestamp (day month year hh mm ss : str) : str :=
  lit "20" ++ year ++ lit "-" ++ month ++ lit "-" ++ day ++ lit " "
  ++ hh ++ lit ":" ++ mm ++ lit ":" ++ ss.

(** The timestamp text that is emitted for [iso]: [iso] itself, or what
    [ciso8601] parses it to, rendered by [strftime]; [None] when [ciso8601]
    raises. *)
Definition rendered (ciso8601 : ciso8601_module) (iso : str) : option str :=
  match ciso8601 with
  | None => Some iso
  | Some parse_datetime =>
      match parse_datetime iso with
      | Returned dt => Some (strftime dt)
      | Raised _ => None
      end
  end.

(** The value text taken from the second field of a line. *)
Definition value_text (field : str) : str :=
  replace "," "." (strip_chr QUOTE (strip (rstrip_chr LF field))).

End Layout.

(** ** Notions used to state further properties of the coordinator *)

Module Coordinator.
Import Py Store.

(** An event of the schema preparer: a statement that creates the relation,
    makes it a hypertable or truncates it, or a commit. *)
Definition preparing (e : event) : Prop :=
  match e with
  | Execute (CREATE_TABLE _) => True
  | Execute (CREATE_HYPERTABLE _ _) => True
  | Execute (TRUNCATE _) => True
  | Commit => True
  | _ => False
  end.

(** The events that end a run which never starts its pool: a missing file
    raises and the run rolls back; a file without data lines closes the
    connection, which the [finally] clause closes once more. *)
Definition ending (file : option (list str)) : list event :=
  match file with
  | None => [Rollback; Close]
  | Some _ => [Close; Close]
  end.

(** The file has no data line: it is missing, empty, or its header alone. *)
Definition no_data_lines (file : option (list str)) : Prop :=
  match file with
  | None => True
  | Some all_lines => length all_lines <= 1
  end.

(** The first value that a list of (timestamp, value) tuples gives for the
    timestamp [k]. *)
Fixpoint first_value {V} (k : Z) (values : list (Z * V)) : option V :=
  match values with
  | [] => None
  | (k', v) :: values' => if decide (k' = k) then Some v else first_value k values'
  end.

(** [get_file_line_count(file_path)]: the lines of the file, less one for
    the header; [0] when there is no file. *)
Definition get_file_line_count (file_path : option (list str)) : Z :=
  match file_path with
  | Some lines => (Z.of_nat (length lines) - 1)%Z
  | None => 0%Z
  end.

End Coordinator.

(** ** Notions used to state what the aggregated query returns *)

Module Query.
Import Py Store Main.

(** The values of the records that fall in the bucket [b], in the order of
    the records. *)
Definition bucket_values {V} (interval b : Z) (records : list (Z * V))
  : list V :=
  map snd (filter (fun row => time_bucket interval (fst row) = b) records).

(** The values collected for the bucket [b] in a list of groups. *)
Fixpoint values_of {V} (b : Z) (groups : list (Z * list V)) : list V :=
  match groups with
  | [] => []
  | (b', vs) :: groups' => if (b =? b')%Z then vs else values_of b groups'
  end.

End Query.

(** ** [src/generate_test_data.py]

    A [datetime] without time zone and with whole seconds is modelled as
    the count of seconds from 1970-01-01 00:00:00; its calendar fields are
    those of the proleptic Gregorian calendar. *)

Module Generator.
Import Py.

Definition CR : ascii := ascii_of_nat 13.

(** The civil date of the day [z], counted from 1970-01-01. *)
Definition civil_from_days (z : Z) : Z * Z * Z :=
  let z := (z + 719468)%Z in
  let era := (z / 146097)%Z in
  let doe := (z - era * 146097)%Z in
  let yoe := ((doe - doe / 1460 + doe / 36524 - doe / 146096) / 365)%Z in
  let doy := (doe - (365 * yoe + yoe / 4 - yoe / 100))%Z in
  let mp := ((5 * doy + 2) / 153)%Z in
  let d := (doy - (153 * mp + 2) / 5 + 1)%Z in
  let m := if (mp <? 10)%Z then (mp + 3)%Z else (mp - 9)%Z in
  let y := (yoe + era * 400 + (if (m <=? 2)%Z then 1 else 0))%Z in
  (y, m, d).

(** The fields of an instant. *)
Definition datetime_of (t : Z) : datetime :=
  let '(y, m, d) := civil_from_days (t / 86400) in
  let s := (t mod 86400)%Z in
  {| year := Z.to_nat y; month := Z.to_nat m; day := Z.to_nat d;
     hour := Z.to_nat (s / 3600); minute := Z.to_nat (s / 60 mod 60);
     second := Z.to_nat (s mod 60) |}.

(** [datetime.weekday()]: Monday is 0; 1970-01-01 was a Thursday. *)
Definition weekday (t : Z) : nat := Z.to_nat ((t / 86400 + 3) mod 7).

(** The last instant a [datetime] can hold, 9999-12-31 23:59:59. *)
Definition datetime_max : Z := 253402300799.

(** [current_time.strftime('%a. %d.%m.%y %H:%M:%S')], [abday] being the
    abbreviated weekday names of the locale in force. *)
Definition strftime_source (abday : nat -> str) (t : Z) : str :=
  let dt := datetime_of t in
  abday (weekday t) ++ lit ". " ++ zero_pad 2 (day dt) ++ lit "."
  ++ zero_pad 2 (month dt) ++ lit "." ++ zero_pad 2 (year dt mod 100)
  ++ lit " " ++ zero_pad 2 (hour dt) ++ lit ":" ++ zero_pad 2 (minute dt)
  ++ lit ":" ++ zero_pad 2 (second dt).

(** [csv.writer(f, delimiter=';')]: a field is quoted, its quotes doubled,
    when it holds the delimiter, a quote or a character of the line
    terminator. *)
Definition special (c : ascii) : bool :=
  chr_eqb c ";" || chr_eqb c QUOTE || chr_eqb c CR || chr_eqb c LF.

Definition csv_field (field : str) : str :=
  if existsb special field
  then QUOTE :: flat_map (fun c => if chr_eqb c QUOTE then [QUOTE; QUOTE]
                                   else [c]) field ++ [QUOTE]
  else field.

(** [writer.writerow([a, b])], without the line terminator. *)
Definition writerow (a b : str) : str := csv_field a ++ lit ";" ++ csv_field b.

(** How the run of the generator ends. *)
Inductive ended := Completed | ZeroDivisionError | OverflowError.

(** The loop over [range(total_seconds + 1)], [remaining] being the
    iterations left: the rows written and how the loop ends.  The progress
    line is left out, but not the division it starts with. *)
Fixpoint write_rows (abday : nat -> str) (progress_step : Z)
    (remaining : nat) (i current_time : Z) : list str * ended :=
  match remaining with
  | O => ([], Completed)
  | S remaining' =>
      if (0 <? i)%Z && (progress_step =? 0)%Z then ([], ZeroDivisionError)
      else
        let formatted_date := strftime_source abday current_time in
        let row := writerow formatted_date (lit "50") in
        if (datetime_max <? current_time + 1)%Z then ([row], OverflowError)
        else
          let '(rows, e) :=
            write_rows abday progress_step remaining' (i + 1)
              (current_time + 1) in
          (row :: rows, e)
  end.

(** [generate_full_year_csv(start_date, end_date, output_file)]: the rows
    of the file it leaves, each without its line terminator, and how it
    ends. *)
Definition generate_full_year_csv (abday : nat -> str)
    (start_date end_date : Z) : list str * ended :=
  let total_seconds := (end_date - start_date)%Z in
  let progress_step := (total_seconds / 10)%Z in
  let header := writerow (lit "Datum Zeit") (lit "A:f_soll_aktiv [Hz]") in
  let '(rows, e) :=
    write_rows abday progress_step (Z.to_nat (total_seconds + 1)) 0
      start_date in
  (header :: rows, e).

(** The lines [readlines] returns for a file of these rows: the carriage
    return and line feed that end a row are read as one line feed. *)
Definition read_back (rows : list str) : list str :=
  map (fun row => row ++ [LF]) rows.

(** The weekday names of the German locale. *)
Definition abday_de (i : nat) : str :=
  match i with
  | 0 => lit "Mo" | 1 => lit "Di" | 2 => lit "Mi" | 3 => lit "Do"
  | 4 => lit "Fr" | 5 => lit "Sa" | _ => lit "So"
  end.

(** The data row written for the instant [t]. *)
Definition source_row (abday : nat -> str) (t : Z) : str :=
  writerow (strftime_source abday t) (lit "50").

(** [check] holds on the [n] integers from [z] on. *)
Fixpoint all_from (check : Z -> bool) (n : nat) (z : Z) : bool :=
  match n with
  | O => true
  | S n' => check z && all_from check n' (z + 1)
  end.

(** The first instant of 2000 and the first instant of 2100. *)
Definition century_start : Z := 946684800.
Definition century_end : Z := 4102444800.

(** A weekday name that holds no digit and nothing the writer quotes. *)
Definition plain_name (s : str) : Prop :=
  Forall (fun c => isdigit c = false /\ special c = false) s.

End Generator.

(** ** Further inputs of the examples *)

Module MoreExamples.
Import Py Store Examples.

(** A sink where the relation is a plain table holding one row. *)
Definition plain : gmap string (table str) :=
  {[ target := {| hypertable := false; rows := {[ 0%Z := lit "50" ]} |} ]}.

Definition plain_world (upcoming : list bool) : world str :=
  {| upcoming := upcoming; committed := plain; pending := plain;
     aborted := false; trace := [] |}.

(** Values of [ingest_data] in which a timestamp comes twice. *)
Definition two_values (file : option (list str)) : outcome (list (Z * str)) :=
  Returned [(0%Z, lit "50"); (0%Z, lit "51"); (1%Z, lit "52")].

End MoreExamples.

(** * Properties *)

Import Py Normalizer.

(** ** Characters and slices *)

Lemma chr_eqb_eq a b : chr_eqb a b = true <-> a = b.
Proof.
  unfold chr_eqb, ord. rewrite Nat.eqb_eq. split; [|congruence].
  intros E. rewrite <- (ascii_nat_embedding a), <- (ascii_nat_embedding b).
  now rewrite E.
Qed.

Lemma isdigit_not_semicolon c : isdigit c = true -> chr_eqb c ";" = false.
Proof.
  unfold isdigit, between, chr_eqb. change (ord ";") with 59%nat.
  intros H. apply andb_prop in H as [_ H]. apply Nat.leb_le in H.
  apply Nat.eqb_neq. lia.
Qed.

Lemma no_chr_app c s t : no_chr c s -> no_chr c t -> no_chr c (s ++ t).
Proof. apply Forall_app_2. Qed.

Lemma lstrip_by_suffix p s : exists pre, s = pre ++ lstrip_by p s.
Proof.
  induction s as [|c s [pre IH]]; simpl.
  - now exists [].
  - destruct (p c).
    + exists (c :: pre). simpl. now f_equal.
    + now exists [].
Qed.

Lemma no_chr_lstrip c p s : no_chr c s -> no_chr c (lstrip_by p s).
Proof.
  intros H. destruct (lstrip_by_suffix p s) as [pre E].
  rewrite E in H. now apply Forall_app in H as [_ H].
Qed.

Lemma no_chr_rev c s : no_chr c s -> no_chr c (rev s).
Proof. unfold no_chr. rewrite !Forall_forall. intros H x Hx. apply H.
  apply list_elem_of_In. apply list_elem_of_In in Hx. now apply in_rev. Qed.

Lemma no_chr_strip_by c p s : no_chr c s -> no_chr c (strip_by p s).
Proof.
  intros H. unfold strip_by, rstrip_by.
  auto using no_chr_rev, no_chr_lstrip.
Qed.

Lemma no_chr_replace c a b s :
  chr_eqb b c = false -> no_chr c s -> no_chr c (replace a b s).
Proof.
  intros Hb H. unfold replace, no_chr. apply Forall_map.
  eapply Forall_impl; [exact H|]. intros x Hx. simpl.
  now destruct (chr_eqb x a).
Qed.

(** Every piece of a split is free of the separator. *)
Lemma split_pieces_no_sep sep s : Forall (no_chr sep) (split sep s).
Proof.
  induction s as [|c s IH]; simpl.
  - repeat constructor.
  - destruct (chr_eqb c sep) eqn:E.
    + constructor; [constructor | exact IH].
    + destruct (split sep s) as [|piece pieces].
      * repeat constructor. exact E.
      * inversion IH; subst. constructor; [constructor|]; assumption.
Qed.

(** A text without the separator splits into itself alone. *)
Lemma split_no_sep sep s : no_chr sep s -> split sep s = [s].
Proof.
  induction 1 as [|c s Hc _ IH]; simpl; [reflexivity|].
  now rewrite Hc, IH.
Qed.

(** ** The pattern yields digit fields *)

Ltac split_andb :=
  repeat match goal with
         | H : (_ && _) = true |- _ => apply andb_prop in H as [? ?]
         end.

Ltac subst_chr :=
  repeat match goal with
         | H : chr_eqb _ _ = true |- _ => apply chr_eqb_eq in H; subst
         end.

Lemma match_time_shape s t :
  match_time s = Some t ->
  exists h1 h2 n1 n2 s1 s2,
    t = [h1; h2; ":"%char; n1; n2; ":"%char; s1; s2]
    /\ Forall (fun c => isdigit c = true) [h1; h2; n1; n2; s1; s2].
Proof.
  unfold match_time.
  destruct s as [|h1 [|h2 [|c1 [|n1 [|n2 [|c2 [|s1 [|s2 r]]]]]]]];
    try discriminate.
  destruct (_ && _) eqn:E; [|discriminate]. intros [= <-].
  split_andb. subst_chr.
  exists h1, h2, n1, n2, s1, s2. split; [reflexivity|].
  repeat constructor; assumption.
Qed.

Lemma match_at_shape s d m y t :
  match_at s = Some (d, m, y, t) ->
  canonical_layout
    (lit "20" ++ y ++ lit "-" ++ m ++ lit "-" ++ d ++ lit " " ++ t) = true.
Proof.
  unfold match_at.
  destruct s as [|d1 [|d2 [|p1 [|m1 [|m2 [|p2 [|y1 [|y2 r]]]]]]]];
    try discriminate.
  destruct (_ && _) eqn:E; [|discriminate].
  destruct (span isspace r) as [[|w ws] r'] eqn:Es; [discriminate|].
  destruct (match_time r') as [t'|] eqn:Et; [|discriminate].
  intros [= <- <- <- <-].
  apply match_time_shape in Et as (h1 & h2 & n1 & n2 & s1 & s2 & -> & Hd).
  split_andb.
  repeat match goal with
         | H : Forall _ (_ :: _) |- _ => inversion H; subst; clear H
         end.
  cbn -[isdigit chr_eqb].
  repeat match goal with
         | H : isdigit _ = true |- _ => rewrite H; clear H
         end.
  reflexivity.
Qed.

Lemma re_search_cons c s :
  re_search (c :: s) =
  match match_at (c :: s) with Some g => Some g | None => re_search s end.
Proof. reflexivity. Qed.

Lemma re_search_shape s d m y t :
  re_search s = Some (d, m, y, t) ->
  canonical_layout
    (lit "20" ++ y ++ lit "-" ++ m ++ lit "-" ++ d ++ lit " " ++ t) = true.
Proof.
  induction s as [|c s IH].
  - discriminate.
  - rewrite re_search_cons.
    destruct (match_at (c :: s)) as [g|] eqn:E.
    + intros [= ->]. now apply match_at_shape in E.
    + exact IH.
Qed.

Lemma canonical_layout_no_semicolon ts :
  canonical_layout ts = true -> no_chr ";" ts.
Proof.
  unfold canonical_layout.
  do 19 (destruct ts as [|? ts]; try discriminate).
  destruct ts; [|discriminate]. intros E.
  split_andb. subst_chr.
  repeat constructor; solve [reflexivity | now apply isdigit_not_semicolon].
Qed.

(** ** [strftime] writes digits and punctuation only *)

Lemma string_of_uint_digits d :
  Forall (fun c => isdigit c = true) (lit (NilEmpty.string_of_uint d)).
Proof. induction d; simpl; constructor; solve [reflexivity | assumption]. Qed.

Lemma decimal_digits n : Forall (fun c => isdigit c = true) (decimal n).
Proof.
  unfold decimal, NilZero.string_of_uint.
  destruct (Nat.to_uint n) eqn:E; try (rewrite <- E; apply string_of_uint_digits).
  repeat constructor.
Qed.

Lemma zero_pad_no_semicolon w n : no_chr ";" (zero_pad w n).
Proof.
  unfold zero_pad. apply no_chr_app.
  - apply Forall_forall. intros x Hx. apply list_elem_of_In in Hx.
    apply repeat_spec in Hx. now subst.
  - eapply Forall_impl; [apply decimal_digits|].
    intros c. apply isdigit_not_semicolon.
Qed.

Lemma strftime_no_semicolon dt : no_chr ";" (strftime dt).
Proof.
  unfold strftime.
  repeat first [ apply zero_pad_no_semicolon
               | match goal with
                 | |- no_chr _ (lit _) => repeat constructor
                 | |- no_chr _ (_ ++ _) => apply no_chr_app
                 end ].
Qed.

(** ** What an accepted line looks like *)

Lemma transform_accepts_inv ciso8601 line out :
  transform_timestamp_fast ciso8601 line = Returned (Some out) ->
  exists c0 c1 rest ts,
    split ";" (rstrip_chr LF line) = c0 :: c1 :: rest
    /\ float_accepts (replace "," "." (strip_chr QUOTE (strip c1))) = true
    /\ emitted_timestamp ciso8601 ts
    /\ out = ts ++ lit "," ++ replace "," "." (strip_chr QUOTE (strip c1))
                ++ [LF].
Proof.
  unfold transform_timestamp_fast, try_block.
  destruct (split ";" (rstrip_chr LF line)) as [|c0 [|c1 rest]];
    try discriminate.
  cbn [length Nat.ltb Nat.leb getitem nth_error mbind outcome_bind].
  unfold float.
  destruct (float_accepts _) eqn:Ef; [|discriminate].
  destruct (re_search _) as [[[[d m] y] t]|] eqn:Er; [|discriminate].
  apply re_search_shape in Er.
  destruct ciso8601 as [parse_datetime|].
  - destruct (parse_datetime _) as [dt|e] eqn:Ep; [|destruct e; discriminate].
    intros [= <-]. exists c0, c1, rest, (strftime dt).
    repeat split; try assumption. simpl. eauto.
  - intros [= <-]. eexists c0, c1, rest, _. repeat split; try eassumption.
    reflexivity.
Qed.

(** ** The normalizer always returns *)

Lemma transform_returns ciso8601 line :
  transform_timestamp_fast ciso8601 line
  = Returned (normalize ciso8601 line).
Proof.
  unfold normalize, transform_timestamp_fast.
  destruct (try_block ciso8601 line) as [r|[]]; reflexivity.
Qed.

Lemma accepted_normalize ciso8601 line :
  accepted ciso8601 line = bool_decide (is_Some (normalize ciso8601 line)).
Proof.
  unfold accepted. rewrite transform_returns.
  destruct (normalize ciso8601 line); reflexivity.
Qed.

Lemma rejected_normalize ciso8601 line :
  rejected ciso8601 line = negb (accepted ciso8601 line).
Proof.
  unfold rejected, accepted. rewrite transform_returns.
  destruct (normalize ciso8601 line); reflexivity.
Qed.

(** ** Tasks, completion orders and collection *)

Import Pool.

Section PoolFacts.
Context {A B : Type}.

Lemma get_tasks_aux_concat fuel chunksize (l : list A) :
  1 <= chunksize -> length l <= fuel ->
  concat (get_tasks_aux fuel chunksize l) = l.
Proof.
  intros Hc. revert l. induction fuel as [|fuel IH]; intros l Hl.
  - destruct l; [reflexivity | simpl in Hl; lia].
  - destruct l as [|x l]; [reflexivity|].
    cbn [get_tasks_aux concat]. rewrite IH.
    + apply take_drop.
    + rewrite length_drop. simpl in *. lia.
Qed.

Lemma get_tasks_concat chunksize (l : list A) :
  1 <= chunksize -> concat (get_tasks chunksize l) = l.
Proof. intros. now apply get_tasks_aux_concat. Qed.

Lemma omap_lookup_seq (pre l : list A) :
  omap (fun i => (pre ++ l) !! i) (seq (length pre) (length l)) = l.
Proof.
  revert pre. induction l as [|x l IH]; intros pre; [reflexivity|].
  cbn [length seq omap list_omap].
  rewrite lookup_app_r, Nat.sub_diag by lia. cbn.
  f_equal. specialize (IH (pre ++ [x])).
  rewrite length_app, Nat.add_1_r, <- app_assoc in IH. exact IH.
Qed.

Lemma completed_tasks_perm (tasks : list A) order :
  Permutation order (seq 0 (length tasks)) ->
  Permutation (omap (fun i => tasks !! i) order) tasks.
Proof.
  intros H. rewrite H. pose proof (omap_lookup_seq [] tasks) as E.
  simpl in E. now rewrite E.
Qed.

Lemma concat_map_perm (h : A -> list B) (a b : list A) :
  Permutation a b ->
  Permutation (concat (map h a)) (concat (map h b)).
Proof.
  induction 1 as [|x a b _ IH|x y a|a b c _ IH1 _ IH2]; simpl.
  - constructor.
  - now apply Permutation_app_head.
  - rewrite !app_assoc. apply Permutation_app_tail, Permutation_app_comm.
  - now transitivity (concat (map h b)).
Qed.

Lemma mapstar_total (f : A -> outcome B) (g : A -> B) task :
  (forall x, f x = Returned (g x)) ->
  mapstar f task = Returned (map g task).
Proof.
  intros Hf. induction task as [|x task IH]; [reflexivity|].
  cbn [mapstar map]. rewrite Hf, IH. reflexivity.
Qed.

Lemma collect_returned (h : A -> list B) (ts : list A) :
  collect (map (fun t => Returned (h t)) ts) = Returned (concat (map h ts)).
Proof.
  induction ts as [|t ts IH]; [reflexivity|].
  cbn [collect map concat]. rewrite IH. reflexivity.
Qed.

End PoolFacts.

(** The transform phase, computed: the results are those of the tasks in
    their completion order. *)
Lemma transform_phase_eq ciso8601 order lines :
  transform_phase ciso8601 order lines =
  let results :=
    concat (map (map (normalize ciso8601))
              (omap (fun i => get_tasks 1000 lines !! i) order)) in
  Returned (omap id results, length (omap id results),
            (Z.of_nat (length lines) - Z.of_nat (length (omap id results)))%Z).
Proof.
  unfold transform_phase, imap_unordered.
  change (Nat.ltb 1000 1) with false. cbn [mbind outcome_bind].
  rewrite (map_ext _ (fun t => Returned (map (normalize ciso8601) t))).
  - rewrite collect_returned. reflexivity.
  - intros t. apply mapstar_total. apply transform_returns.
Qed.

Lemma transform_results_perm ciso8601 order lines :
  Permutation order (seq 0 (length (get_tasks 1000 lines))) ->
  Permutation
    (concat (map (map (normalize ciso8601))
               (omap (fun i => get_tasks 1000 lines !! i) order)))
    (map (normalize ciso8601) lines).
Proof.
  intros H.
  rewrite (concat_map_perm _ _ _ (completed_tasks_perm _ _ H)).
  rewrite <- (get_tasks_concat 1000 lines) at 2 by lia.
  generalize (get_tasks 1000 lines) as ts.
  induction ts as [|t ts IH]; simpl; [constructor|].
  rewrite map_app. now apply Permutation_app_head.
Qed.

Lemma omap_id_length_accepted ciso8601 lines :
  length (omap id (map (normalize ciso8601) lines))
  = length (filter (fun l => accepted ciso8601 l = true) lines).
Proof.
  induction lines as [|l lines IH]; [reflexivity|].
  cbn [map omap list_omap]. rewrite filter_cons.
  rewrite accepted_normalize.
  destruct (normalize ciso8601 l) eqn:E; cbn.
  - rewrite decide_True by reflexivity. simpl. f_equal. exact IH.
  - rewrite decide_False by discriminate. exact IH.
Qed.

Lemma accepted_rejected_partition ciso8601 lines :
  length (filter (fun l => accepted ciso8601 l = true) lines)
  + length (filter (fun l => rejected ciso8601 l = true) lines)
  = length lines.
Proof.
  induction lines as [|l lines IH]; [reflexivity|].
  rewrite !filter_cons, rejected_normalize.
  destruct (accepted ciso8601 l); simpl;
    repeat case_decide; try discriminate; try congruence; simpl; lia.
Qed.

(** ** The sink *)

Import Store Facts.

Section StoreFacts.
Context {V : Type}.
Implicit Types (w : world V) (d : gmap string (table V)) (t : gmap Z V).

(** [COPY] does not depend on the order of its records. *)
Lemma copy_rows_perm sink_row (r1 r2 : list str) :
  Permutation r1 r2 ->
  forall t, copy_rows sink_row t r1 = copy_rows sink_row t r2.
Proof.
  induction 1 as [|x r1 r2 _ IH|x y r|r1 r2 r3 _ IH1 _ IH2]; intros t.
  - reflexivity.
  - simpl. destruct (sink_row x) as [[k v]|]; [|reflexivity].
    destruct (t !! k); [reflexivity | apply IH].
  - simpl.
    destruct (sink_row x) as [[k v]|], (sink_row y) as [[k' v']|];
      try reflexivity.
    + destruct (decide (k = k')) as [->|Hne].
      * destruct (t !! k'); [reflexivity|].
        now rewrite !lookup_insert_eq.
      * rewrite !lookup_insert_ne by congruence.
        destruct (t !! k), (t !! k'); try reflexivity.
        now rewrite insert_insert_ne by congruence.
    + destruct (t !! k); reflexivity.
    + destruct (t !! k'); reflexivity.
  - now rewrite IH1.
Qed.

(** [ON CONFLICT DO NOTHING] keeps a row that is already there. *)
Lemma insert_do_nothing_keeps t values k v :
  t !! k = Some v -> insert_do_nothing t values !! k = Some v.
Proof.
  revert t. induction values as [|[k' v'] values IH]; intros t H; [exact H|].
  simpl. destruct (t !! k') eqn:E; [now apply IH|].
  apply IH. rewrite lookup_insert_ne; [exact H | congruence].
Qed.

Lemma insert_do_nothing_present t values :
  Forall (fun kv => is_Some (t !! fst kv)) values ->
  insert_do_nothing t values = t.
Proof.
  induction 1 as [|[k v] values [x Hx] _ IH]; [reflexivity|].
  simpl in *. now rewrite Hx.
Qed.

Lemma insert_do_nothing_covers t values :
  Forall (fun kv => is_Some (insert_do_nothing t values !! fst kv)) values.
Proof.
  revert t. induction values as [|[k v] values IH]; intros t; [constructor|].
  simpl. destruct (t !! k) eqn:E.
  - constructor; [|apply IH]. simpl. eauto using insert_do_nothing_keeps.
  - constructor; [|apply IH]. simpl. exists v.
    apply insert_do_nothing_keeps, lookup_insert_eq.
Qed.

(** Inserting the same values a second time changes nothing. *)
Lemma insert_do_nothing_twice t values :
  insert_do_nothing (insert_do_nothing t values) values
  = insert_do_nothing t values.
Proof. apply insert_do_nothing_present, insert_do_nothing_covers. Qed.

End StoreFacts.

(** ** Steps of a program on the world *)

Import Database IngestionPerf.

Ltac io_unfold :=
  unfold mbind, io_bind, mret, io_ret, try_except, try_finally, raise, lift;
  cbv beta.

Section Steps.
Context {V : Type}.
Implicit Types (w : world V) (d : gmap string (table V)).

Lemma get_db_connection_ok w rest :
  upcoming w = true :: rest ->
  exists w', get_db_connection w = (Returned true, w')
             /\ clean w' (committed w) /\ upcoming w' = rest
             /\ trace w' = trace w ++ [Connect true].
Proof.
  intros H. unfold get_db_connection, connect. io_unfold.
  rewrite H. cbn. eexists. split; [reflexivity|].
  repeat split.
Qed.

Lemma get_db_connection_refused w :
  head (upcoming w) <> Some true ->
  exists w', get_db_connection w = (Returned false, w')
             /\ committed w' = committed w
             /\ upcoming w' = tail (upcoming w)
             /\ trace w' = trace w ++ [Connect false].
Proof.
  intros H. unfold get_db_connection, connect. io_unfold.
  destruct (upcoming w) as [|[] rest]; try (now destruct H);
    cbn; eexists; split; try reflexivity; repeat split.
Qed.

Lemma execute_commit_ok s w d d' :
  clean w d -> apply_ddl s d = Some d' ->
  exists w', (execute s;; commit) w = (Returned tt, w') /\ clean w' d'.
Proof.
  intros (Hc & Hp & Ha) Hs.
  unfold execute, run_statement, commit. io_unfold.
  rewrite Ha, Hp, Hs. cbn.
  eexists. split; [reflexivity|]. repeat split.
Qed.

Lemma execute_fails s w d :
  clean w d -> apply_ddl s d = None ->
  exists w', execute s w = (Raised DatabaseError, w')
             /\ committed w' = d /\ aborted w' = true.
Proof.
  intros (Hc & Hp & Ha) Hs.
  unfold execute, run_statement. rewrite Ha, Hp, Hs.
  eexists. split; [reflexivity|]. now split.
Qed.

Lemma execute_aborted s w :
  aborted w = true ->
  exists w', execute s w = (Raised DatabaseError, w')
             /\ committed w' = committed w /\ aborted w' = true.
Proof.
  intros Ha. unfold execute, run_statement. rewrite Ha.
  eexists. split; [reflexivity|]. now split.
Qed.

Lemma bind_returned {A B} (m : io V A) (k : A -> io V B) w a w' :
  m w = (Returned a, w') -> (m ≫= k) w = k a w'.
Proof. intros H. io_unfold. now rewrite H. Qed.

Lemma bind_raised {A B} (m : io V A) (k : A -> io V B) w e w' :
  m w = (Raised e, w') -> (m ≫= k) w = (Raised e, w').
Proof. intros H. io_unfold. now rewrite H. Qed.

Lemma try_execute_commit_ok s h w d d' :
  clean w d -> apply_ddl s d = Some d' ->
  exists w', (try_except (execute s) h;; commit) w = (Returned tt, w')
             /\ clean w' d'.
Proof.
  intros (Hc & Hp & Ha) Hs.
  unfold execute, run_statement, commit. io_unfold.
  rewrite Ha, Hp, Hs. cbn.
  eexists. split; [reflexivity|]. repeat split.
Qed.

Lemma table_exists_eq t w :
  table_exists t w = (Returned (bool_decide (is_Some (pending w !! t))), w).
Proof. reflexivity. Qed.

Lemma is_hypertable_eq t w :
  is_hypertable t w
  = (Returned (match pending w !! t with
               | Some tb => hypertable tb
               | None => false
               end), w).
Proof. reflexivity. Qed.

(** The schema preparer with [clear_data=True], from a fresh connection:
    it leaves the relation as an empty hypertable, or fails and leaves the
    database as it was. *)
Lemma ensure_table_and_hypertable_spec t w d :
  clean w d ->
  if preparer_fails d t
  then exists e w', ensure_table_and_hypertable t true w = (Raised e, w')
                    /\ committed w' = d
  else exists w', ensure_table_and_hypertable t true w = (Returned tt, w')
                  /\ clean w' (<[t := {| hypertable := true; rows := ∅ |}]> d).
Proof.
  intros Hw. pose proof Hw as (Hc & Hp & Ha).
  unfold preparer_fails, ensure_table_and_hypertable.
  rewrite (bind_returned _ _ _ _ _ (table_exists_eq t w)), Hp.
  destruct (d !! t) as [[h r]|] eqn:Ed; cbn [hypertable rows].
  - rewrite (bool_decide_true (is_Some (Some _))) by eauto. cbn [negb].
    rewrite (bind_returned (mret tt) _ w tt w) by reflexivity.
    rewrite (bind_returned _ _ _ _ _ (is_hypertable_eq t w)), Hp, Ed.
    cbn [hypertable].
    destruct h; cbn [negb andb].
    + rewrite (bind_returned (mret tt) _ w tt w) by reflexivity.
      destruct (execute_commit_ok (TRUNCATE t) w d
                  (<[t := {| hypertable := true; rows := ∅ |}]> d) Hw)
        as (w' & E & Hw'); [cbn; now rewrite Ed|].
      eauto.
    + case_bool_decide as Hr; cbn [negb].
      * subst r.
        destruct (try_execute_commit_ok (CREATE_HYPERTABLE t true)
                    (fun e => match e with
                              | DatabaseError =>
                                  execute (CREATE_HYPERTABLE t false)
                              | _ => raise e
                              end) w d
                    (<[t := {| hypertable := true; rows := ∅ |}]> d) Hw)
          as (w1 & E1 & Hw1).
        { cbn. rewrite Ed. cbn. now rewrite decide_True by reflexivity. }
        rewrite (bind_returned _ _ _ _ _ E1).
        destruct (execute_commit_ok (TRUNCATE t) w1 _
                    (<[t := {| hypertable := true; rows := ∅ |}]> d) Hw1)
          as (w2 & E2 & Hw2).
        { cbn. rewrite lookup_insert_eq. cbn. unfold with_rows. cbn.
          now rewrite insert_insert_eq. }
        eauto.
      * destruct (execute_fails (CREATE_HYPERTABLE t true) w d Hw)
          as (w1 & E1 & Hc1 & Ha1).
        { cbn. rewrite Ed. cbn. now rewrite decide_False by assumption. }
        destruct (execute_aborted (CREATE_HYPERTABLE t false) w1 Ha1)
          as (w2 & E2 & Hc2 & _).
        exists DatabaseError, w2. split; [|congruence].
        apply bind_raised. apply bind_raised.
        unfold try_except. now rewrite E1.
  - rewrite (bool_decide_false (is_Some None)) by (intros [? ?]; discriminate).
    cbn [negb].
    destruct (execute_commit_ok (CREATE_TABLE t) w d
                (<[t := {| hypertable := false; rows := ∅ |}]> d) Hw)
      as (w1 & E1 & Hw1); [cbn; now rewrite Ed|].
    rewrite (bind_returned _ _ _ _ _ E1).
    pose proof Hw1 as (_ & Hp1 & _).
    rewrite (bind_returned _ _ _ _ _ (is_hypertable_eq t w1)), Hp1.
    rewrite lookup_insert_eq. cbn [hypertable negb].
    destruct (try_execute_commit_ok (CREATE_HYPERTABLE t true)
                (fun e => match e with
                          | DatabaseError =>
                              execute (CREATE_HYPERTABLE t false)
                          | _ => raise e
                          end) w1 _
                (<[t := {| hypertable := true; rows := ∅ |}]> d) Hw1)
      as (w2 & E2 & Hw2).
    { cbn. rewrite lookup_insert_eq. cbn.
      rewrite decide_True by reflexivity. now rewrite insert_insert_eq. }
    rewrite (bind_returned _ _ _ _ _ E2).
    destruct (execute_commit_ok (TRUNCATE t) w2 _
                (<[t := {| hypertable := true; rows := ∅ |}]> d) Hw2)
      as (w3 & E3 & Hw3).
    { cbn. rewrite lookup_insert_eq. cbn. unfold with_rows. cbn.
      now rewrite insert_insert_eq. }
    eauto.
Qed.

Lemma rollback_clean w :
  exists w', rollback w = (Returned tt, w') /\ clean w' (committed w).
Proof. eexists. split; [reflexivity|]. repeat split. Qed.

Lemma close_clean w :
  exists w', close w = (Returned tt, w') /\ clean w' (committed w).
Proof. eexists. split; [reflexivity|]. repeat split. Qed.

Lemma log_clean e w d :
  clean w d -> exists w', log e w = (Returned tt, w') /\ clean w' d.
Proof. intros H. eexists. split; [reflexivity|]. exact H. Qed.

(** [try: body except: rollback finally: close], whatever the body does:
    the world is left clean on what was committed last. *)
Lemma guarded_clean (body : io V unit) w r w1 :
  body w = (r, w1) ->
  exists w',
    try_finally
      (try_except body (fun _ => try_except rollback (fun _ => mret tt)))
      close w
    = (Returned tt, w')
    /\ clean w' (committed w1).
Proof.
  intros Hb. unfold try_finally, try_except. io_unfold. rewrite Hb.
  destruct r as [[]|e]; cbn; eexists; (split; [reflexivity|]); repeat split.
Qed.

Lemma transform_phase_cleaned ciso8601 order lines :
  Permutation order (seq 0 (length (get_tasks 1000 lines))) ->
  exists cleaned n k,
    transform_phase ciso8601 order lines = Returned (cleaned, n, k)
    /\ Permutation cleaned (omap (normalize ciso8601) lines).
Proof.
  intros H. rewrite transform_phase_eq. cbv zeta.
  eexists _, _, _. split; [reflexivity|].
  rewrite (transform_results_perm ciso8601 order lines H).
  clear. induction lines as [|l lines IH]; [constructor|].
  cbn. destruct (normalize ciso8601 l); cbn; [constructor|]; exact IH.
Qed.

(** What [ingest_parallel] leaves: it returns, and the committed database
    is [after_ingest_parallel] of the one it found. *)
Lemma ingest_parallel_committed sink_row ciso8601 num_cpus order file t w rest :
  upcoming w = true :: rest ->
  run_order num_cpus file order ->
  exists w',
    ingest_parallel sink_row ciso8601 num_cpus order file t w
    = (Returned tt, w')
    /\ clean w' (after_ingest_parallel sink_row ciso8601 file t (committed w)).
Proof.
  intros Hup Hord.
  destruct (get_db_connection_ok w rest Hup) as (w1 & Hconn & Hw1 & _).
  unfold ingest_parallel.
  rewrite (bind_returned _ _ _ _ _ Hconn). cbn [negb].
  match goal with
  | |- context [try_finally (try_except ?b _) close w1] =>
      destruct (b w1) as [r w2] eqn:Hb;
      destruct (guarded_clean b w1 r w2 Hb) as (w' & E & Hw')
  end.
  exists w'. split; [exact E|].
  replace (after_ingest_parallel sink_row ciso8601 file t (committed w))
    with (committed w2); [exact Hw'|].
  clear E Hw' w'. unfold after_ingest_parallel.
  pose proof (ensure_table_and_hypertable_spec t w1 _ Hw1) as Hens.
  destruct (preparer_fails (committed w) t).
  - destruct Hens as (e & w3 & He & Hc).
    rewrite (bind_raised _ _ _ _ _ He) in Hb.
    injection Hb as _ <-. exact Hc.
  - destruct Hens as (w3 & He & Hw3).
    rewrite (bind_returned _ _ _ _ _ He) in Hb.
    pose proof Hw3 as (Hc3 & Hp3 & Ha3).
    destruct file as [all_lines|]; cbn [readlines loaded_rows] in *.
    + rewrite (bind_returned (mret all_lines) _ w3 all_lines w3) in Hb
        by reflexivity.
      destruct (drop 1 all_lines) as [|l lines] eqn:Ed.
      * cbn in Hb. injection Hb as _ <-. cbn. exact Hc3.
      * cbn [length Nat.eqb] in Hb.
        destruct (log_clean (PoolStart num_cpus) w3 _ Hw3)
          as (w4 & E4 & Hc4 & Hp4 & Ha4).
        rewrite (bind_returned _ _ _ _ _ E4) in Hb.
        destruct Hord as (_ & Hperm & _). rewrite Ed in Hperm.
        destruct (transform_phase_cleaned ciso8601 order (l :: lines) Hperm)
          as (cleaned & n & k & Etr & Hcl).
        rewrite (bind_returned (lift _) _ w4 (cleaned, n, k) w4) in Hb
          by (unfold lift; now rewrite Etr).
        rewrite <- (copy_rows_perm sink_row _ _ Hcl).
        revert Hb. unfold copy_expert, run_statement, commit. io_unfold.
        rewrite Ha4, Hp4, lookup_insert_eq. cbn.
        destruct (copy_rows sink_row ∅ cleaned) as [r'|]; cbn.
        -- intros [= _ <-]. cbn. unfold with_rows. cbn.
           now rewrite insert_insert_eq.
        -- intros [= _ <-]. cbn. exact Hc4.
    + rewrite (bind_raised (raise FileNotFoundError) _ w3 FileNotFoundError w3)
        in Hb by reflexivity.
      injection Hb as _ <-. exact Hc3.
Qed.

End Steps.

(** ** What a program adds to the trace *)

Create HintDb emits.

Section Emits.
Context {V : Type}.
Variable P : event -> Prop.

Lemma emits_ret {A} (a : A) : emits (V:=V) P (mret a).
Proof. intros w r w' [= <- <-]. exists []. now rewrite app_nil_r. Qed.

Lemma emits_raise {A} e : emits (V:=V) (A:=A) P (raise e).
Proof. intros w r w' [= <- <-]. exists []. now rewrite app_nil_r. Qed.

Lemma emits_lift {A} (o : outcome A) : emits (V:=V) P (lift o).
Proof. intros w r w' [= <- <-]. exists []. now rewrite app_nil_r. Qed.

Lemma emits_bind {A B} (m : io V A) (k : A -> io V B) :
  emits P m -> (forall a, emits P (k a)) -> emits P (m ≫= k).
Proof.
  intros Hm Hk w r w'. io_unfold.
  destruct (m w) as [[a|e] w1] eqn:E; destruct (Hm _ _ _ E) as (ev1 & T1 & F1).
  - intros H. destruct (Hk a _ _ _ H) as (ev2 & T2 & F2).
    exists (ev1 ++ ev2). rewrite T2, T1, app_assoc. split; [reflexivity|].
    now apply Forall_app.
  - intros [= <- <-]. eauto.
Qed.

Lemma emits_try_except {A} (m : io V A) h :
  emits P m -> (forall e, emits P (h e)) -> emits P (try_except m h).
Proof.
  intros Hm Hh w r w'. unfold try_except.
  destruct (m w) as [[a|e] w1] eqn:E; destruct (Hm _ _ _ E) as (ev1 & T1 & F1).
  - intros [= <- <-]. eauto.
  - intros H. destruct (Hh e _ _ _ H) as (ev2 & T2 & F2).
    exists (ev1 ++ ev2). rewrite T2, T1, app_assoc. split; [reflexivity|].
    now apply Forall_app.
Qed.

Lemma emits_try_finally {A} (m : io V A) f :
  emits P m -> emits P f -> emits P (try_finally m f).
Proof.
  intros Hm Hf w r w'. unfold try_finally.
  destruct (m w) as [r1 w1] eqn:E. destruct (Hm _ _ _ E) as (ev1 & T1 & F1).
  destruct (f w1) as [r2 w2] eqn:E2. destruct (Hf _ _ _ E2) as (ev2 & T2 & F2).
  intros H. assert (w' = w2) as -> by (destruct r2; now inversion H).
  exists (ev1 ++ ev2). rewrite T2, T1, app_assoc. split; [reflexivity|].
  now apply Forall_app.
Qed.

Lemma emits_log e : P e -> emits (V:=V) P (log e).
Proof. intros He w r w' [= <- <-]. exists [e]. cbn. eauto. Qed.

Lemma emits_run_statement s effect :
  P (Execute s) -> emits (V:=V) P (run_statement s effect).
Proof.
  intros He w r w'. unfold run_statement.
  destruct (if aborted w then None else effect (pending w));
    intros [= <- <-]; exists [Execute s]; cbn; eauto.
Qed.

Lemma emits_commit : P Commit -> emits (V:=V) P commit.
Proof. intros He w r w' [= <- <-]. exists [Commit]. cbn. eauto. Qed.

Lemma emits_rollback : P Rollback -> emits (V:=V) P rollback.
Proof. intros He w r w' [= <- <-]. exists [Rollback]. cbn. eauto. Qed.

Lemma emits_close : P Close -> emits (V:=V) P close.
Proof. intros He w r w' [= <- <-]. exists [Close]. cbn. eauto. Qed.

Lemma emits_table_exists t : emits (V:=V) P (table_exists t).
Proof. intros w r w' [= <- <-]. exists []. now rewrite app_nil_r. Qed.

Lemma emits_is_hypertable t : emits (V:=V) P (is_hypertable t).
Proof. intros w r w' [= <- <-]. exists []. now rewrite app_nil_r. Qed.

End Emits.

#[local] Hint Resolve emits_ret emits_raise emits_lift emits_bind
  emits_try_except emits_try_finally emits_log emits_run_statement
  emits_commit emits_rollback emits_close emits_table_exists
  emits_is_hypertable : emits.

Ltac emits_auto :=
  repeat first
    [ exact I
    | progress intros
    | match goal with
      | |- emits _ (if ?b then _ else _) => destruct b
      | |- emits _ (match ?e with _ => _ end) => destruct e
      | |- emits _ (_ ≫= _) => apply emits_bind
      | |- emits _ (try_except _ _) => apply emits_try_except
      | |- emits _ (try_finally _ _) => apply emits_try_finally
      | |- emits _ (execute _) => apply emits_run_statement
      | |- emits _ (copy_expert _ _ _) => apply emits_run_statement
      | |- emits _ (execute_values _ _) => apply emits_run_statement
      | |- emits _ commit => apply emits_commit
      | |- emits _ rollback => apply emits_rollback
      | |- emits _ close => apply emits_close
      | |- emits _ (log _) => apply emits_log
      | |- emits _ (readlines _) => unfold readlines
      | |- emits _ _ => solve [auto with emits]
      end ].

Section EmitsPrograms.
Context {V : Type}.

(** The schema preparer executes no [DROP TABLE] and opens no connection. *)
Lemma ensure_table_and_hypertable_quiet t clear_data :
  emits (V:=V) quiet (ensure_table_and_hypertable t clear_data).
Proof. unfold ensure_table_and_hypertable. emits_auto. Qed.

(** The events of a run of [ingest_parallel]: one connection attempt, and
    after it neither another attempt nor a [DROP TABLE]; when the attempt
    fails nothing follows and the database is left as it was. *)
Lemma ingest_parallel_trace sink_row ciso8601 num_cpus order file t
    (w : world V) r w' :
  ingest_parallel sink_row ciso8601 num_cpus order file t w = (r, w') ->
  exists ok evs,
    trace w' = trace w ++ Connect ok :: evs
    /\ Forall quiet evs
    /\ (ok = false -> evs = [] /\ committed w' = committed w)
    /\ ok = bool_decide (head (upcoming w) = Some true).
Proof.
  unfold ingest_parallel. intros H.
  destruct (decide (head (upcoming w) = Some true)) as [Hup|Hup].
  - destruct (upcoming w) as [|b rest] eqn:Eu; [discriminate|].
    injection Hup as ->.
    destruct (get_db_connection_ok w rest Eu) as (w1 & Hc & _ & _ & Ht).
    rewrite (bind_returned _ _ _ _ _ Hc) in H. cbn [negb] in H.
    match type of H with
    | ?m w1 = _ => assert (Hq : emits quiet m)
    end.
    { emits_auto. apply ensure_table_and_hypertable_quiet. }
    destruct (Hq _ _ _ H) as (evs & Ht' & Hf).
    exists true, evs. rewrite Ht', Ht, <- app_assoc.
    repeat split; [assumption | discriminate | discriminate].
  - destruct (get_db_connection_refused w Hup) as (w1 & Hc & Hd & _ & Ht).
    rewrite (bind_returned _ _ _ _ _ Hc) in H. cbn in H.
    injection H as _ <-. exists false, []. rewrite Ht.
    rewrite bool_decide_false by assumption. auto.
Qed.

End EmitsPrograms.

(** ** [ingest_data] *)

Import Ingestion.

Section IngestDataFacts.
Context {V : Type}.
Variable data_to_insert : option (list str) -> outcome (list (Z * V)).
Implicit Types (w : world V) (d : gmap string (table V)).

Lemma execute_commit_then {A} s (k : io V A) w d d' :
  clean w d -> apply_ddl s d = Some d' ->
  exists w', clean w' d' /\ trace w' = trace w ++ [Execute s; Commit]
             /\ (execute s;; commit;; k) w = k w'.
Proof.
  intros (Hc & Hp & Ha) Hs.
  unfold execute, run_statement, commit. io_unfold.
  rewrite Ha, Hp, Hs. cbn.
  eexists. split; [|split; [|reflexivity]].
  - repeat split.
  - cbn. now rewrite <- app_assoc.
Qed.

Lemma guarded_rollback_clean (body : io V unit) w r w1 :
  body w = (r, w1) ->
  exists w',
    try_finally (try_except body (fun _ => rollback)) close w
    = (Returned tt, w')
    /\ clean w' (committed w1)
    /\ exists evs, trace w' = trace w1 ++ evs.
Proof.
  intros Hb. unfold try_finally, try_except. io_unfold. rewrite Hb.
  destruct r as [[]|e]; cbn; eexists; (split; [reflexivity|]);
    (split; [repeat split|]); cbn; rewrite <- ?app_assoc; eauto.
Qed.

(** What [ingest_data] does when it gets its connection: it returns, the
    first statement it executes is the [DROP TABLE], and the database it
    leaves is [after_ingest_data] of the one it found. *)
Lemma ingest_data_connected file w rest :
  upcoming w = true :: rest ->
  exists w' evs,
    ingest_data data_to_insert file w = (Returned tt, w')
    /\ clean w' (after_ingest_data (data_to_insert file) (committed w))
    /\ trace w'
       = trace w ++ Connect true
         :: Execute (DROP_TABLE_IF_EXISTS Ingestion.swissgrid_frequency_data)
         :: evs.
Proof.
  intros Hup.
  destruct (get_db_connection_ok w rest Hup) as (w1 & Hconn & Hw1 & _ & Ht1).
  unfold ingest_data.
  rewrite (bind_returned _ _ _ _ _ Hconn). cbn [negb].
  set (T := Ingestion.swissgrid_frequency_data).
  match goal with
  | |- context [try_finally (try_except ?b _) close w1] =>
      destruct (b w1) as [r w5] eqn:Hb;
      destruct (guarded_rollback_clean b w1 r w5 Hb)
        as (w' & E & Hw' & evs & Ht')
  end.
  assert (Hgoal : committed w5
                  = after_ingest_data (data_to_insert file) (committed w)
                  /\ exists evs', trace w5
                                  = trace w1 ++ Execute (DROP_TABLE_IF_EXISTS T)
                                    :: evs').
  { clear E Hw' Ht'. revert Hb.
    match goal with
    | |- (execute ?s;; commit;; ?k) w1 = _ -> _ =>
        destruct (execute_commit_then s k w1 _ _ Hw1 eq_refl)
          as (w2 & Hw2 & Ht2 & E2)
    end.
    rewrite E2. clear E2.
    match goal with
    | |- (execute ?s;; commit;; ?k) w2 = _ -> _ =>
        destruct (execute_commit_then s k w2 _
                    (<[T := {| hypertable := false; rows := ∅ |}]>
                       (committed w)) Hw2)
          as (w3 & Hw3 & Ht3 & E3)
    end.
    { cbn. rewrite lookup_delete_eq. now rewrite insert_delete_eq. }
    rewrite E3. clear E3.
    pose proof Hw3 as (_ & Hp3 & _).
    rewrite (bind_returned _ _ _ _ _ (is_hypertable_eq T w3)), Hp3.
    rewrite lookup_insert_eq. cbn [hypertable negb].
    destruct (execute_commit_ok (CREATE_HYPERTABLE T false) w3 _
                (<[T := {| hypertable := true; rows := ∅ |}]> (committed w))
                Hw3) as (w4 & E4 & Hw4).
    { cbn. rewrite lookup_insert_eq. cbn.
      rewrite decide_True by reflexivity. now rewrite insert_insert_eq. }
    rewrite (bind_returned _ _ _ _ _ E4).
    assert (Ht4 : exists e4, trace w4 = trace w3 ++ e4).
    { revert E4. unfold execute, run_statement, commit. io_unfold.
      destruct Hw3 as (_ & -> & ->). cbn.
      destruct (_ !! T) as [[[] ?]|]; cbn; try case_decide;
        intros [= <-]; cbn; rewrite <- ?app_assoc; eauto. }
    destruct Ht4 as (e4 & Ht4).
    destruct Hw4 as (Hc4 & Hp4 & Ha4).
    unfold after_ingest_data, lift, execute_values, run_statement, commit.
    io_unfold.
    destruct (data_to_insert file) as [vs|e].
    - rewrite Ha4, Hp4, lookup_insert_eq. cbn.
      intros [= _ <-]. cbn. split.
      + unfold with_rows. cbn. now rewrite insert_insert_eq.
      + rewrite Ht4, Ht3, Ht2. rewrite <- !app_assoc. cbn. eauto.
    - intros [= _ <-]. split; [exact Hc4|].
      rewrite Ht4, Ht3, Ht2. rewrite <- !app_assoc. cbn. eauto. }
  destruct Hgoal as (Hc5 & evs' & Ht5).
  exists w', (evs' ++ evs). split; [exact E|]. split.
  - now rewrite <- Hc5.
  - rewrite Ht', Ht5, Ht1. rewrite <- !app_assoc. reflexivity.
Qed.

End IngestDataFacts.

(** ** [src/main.py] *)

Import Main.

Section MainFacts.
Context {V : Type}.
Implicit Types (w : world V).

Lemma connect_loop_success k :
  forall attempt remaining w rest,
    upcoming w = repeat false k ++ true :: rest ->
    k < remaining -> attempt + remaining = 6 ->
    exists w',
      connect_loop 5 5 attempt remaining w = (Returned (Some tt), w')
      /\ trace w' = trace w ++ failed_attempts k ++ [Connect true]
      /\ upcoming w' = rest /\ committed w' = committed w.
Proof.
  induction k as [|k IH]; intros attempt remaining w rest Hup Hk Ha;
    destruct remaining as [|remaining]; try lia.
  - cbn [connect_loop]. unfold connect. io_unfold. rewrite Hup. cbn.
    eexists. repeat split.
  - cbn [connect_loop]. unfold connect. io_unfold. rewrite Hup. cbn.
    destruct (Nat.eqb_spec attempt 5) as [->|_]; [lia|].
    match goal with
    | |- context [connect_loop 5 5 (S attempt) remaining ?w2] =>
        destruct (IH (S attempt) remaining w2 rest)
          as (w' & E & Ht & Hu & Hc); [| | |rewrite E]
    end.
    + cbn. reflexivity.
    + lia.
    + lia.
    + exists w'. split; [reflexivity|]. cbn in Ht, Hc.
      rewrite Ht, <- !app_assoc. repeat split; assumption.
Qed.

Lemma connect_loop_exhausted remaining :
  forall attempt w,
    Forall (fun b => b = false) (take remaining (upcoming w)) ->
    1 <= remaining -> attempt + remaining = 6 ->
    exists w',
      connect_loop 5 5 attempt remaining w = (Raised OperationalError, w')
      /\ trace w'
         = trace w ++ failed_attempts (remaining - 1) ++ [Connect false]
      /\ committed w' = committed w.
Proof.
  induction remaining as [|remaining IH]; intros attempt w Hf Hr Ha; [lia|].
  cbn [connect_loop]. unfold connect. io_unfold.
  assert (Hhead : match upcoming w with [] => false | b :: _ => b end = false).
  { destruct (upcoming w) as [|b rest]; [reflexivity|].
    now inversion Hf. }
  rewrite Hhead. cbn.
  destruct (Nat.eqb_spec attempt 5) as [->|Hne].
  - assert (remaining = 0) as -> by lia. cbn.
    eexists. repeat split.
  - match goal with
    | |- context [connect_loop 5 5 (S attempt) remaining ?w2] =>
        destruct (IH (S attempt) w2) as (w' & E & Ht & Hc); [| | |rewrite E]
    end.
    + cbn. destruct (upcoming w) as [|b rest]; cbn in *.
      * rewrite take_nil. constructor.
      * now inversion Hf.
    + lia.
    + lia.
    + exists w'. split; [reflexivity|]. cbn in Ht, Hc.
      rewrite Ht, <- !app_assoc. split; [|assumption].
      unfold failed_attempts.
      replace (remaining - 0) with (S (remaining - 1)) by lia.
      reflexivity.
Qed.

(** *** The two read operations *)

Lemma insert_by_key_not_empty {A} (x : Z * A) l :
  is_empty (insert_by_key x l) = false.
Proof. destruct l as [|y l]; cbn; [reflexivity|]. now destruct (_ <=? _)%Z. Qed.

Lemma order_by_key_is_empty {A} (l : list (Z * A)) :
  is_empty (order_by_key l) = is_empty l.
Proof. destruct l; [reflexivity|]. apply insert_by_key_not_empty. Qed.

Lemma group_insert_not_empty b (v : V) groups :
  is_empty (group_insert b v groups) = false.
Proof.
  destruct groups as [|[b' vs] groups]; cbn; [reflexivity|].
  destruct (_ =? _)%Z; [reflexivity|]. now destruct (_ <? _)%Z.
Qed.

Lemma group_by_bucket_is_empty interval (records : list (Z * V)) :
  is_empty (group_by_bucket interval records) = is_empty records.
Proof. destruct records; [reflexivity|]. apply group_insert_not_empty. Qed.

Lemma map_is_empty {A B} (f : A -> B) l : is_empty (map f l) = is_empty l.
Proof. now destruct l. Qed.

Lemma in_range_spec start_dt end_dt (row : Z * V) :
  in_range start_dt end_dt row = true
  <-> (start_dt <= fst row <= end_dt)%Z.
Proof. unfold in_range. rewrite andb_true_iff, !Z.leb_le. tauto. Qed.

(** The range query finds a row exactly when the range holds one. *)
Lemma fetch_range_is_empty (db : gmap string (table V)) t tb start_dt end_dt :
  db !! t = Some tb ->
  exists records,
    fetch_range db t start_dt end_dt = Returned records
    /\ (is_empty records = false <-> range_has_row tb start_dt end_dt).
Proof.
  intros Hdb. unfold fetch_range. rewrite Hdb.
  eexists. split; [reflexivity|].
  rewrite order_by_key_is_empty.
  set (l := filter _ _).
  assert (Hl : forall row, row ∈ l
                 <-> rows tb !! fst row = Some (snd row)
                     /\ (start_dt <= fst row <= end_dt)%Z).
  { intros [k v]. unfold l. rewrite list_elem_of_filter, in_range_spec.
    rewrite elem_of_map_to_list. cbn. tauto. }
  split.
  - destruct l as [|[k v] l'] eqn:El; [discriminate|]. intros _.
    exists k, v. apply (Hl (k, v)). left.
  - intros (k & v & Hkv & Hr).
    assert (Hin : (k, v) ∈ l) by (apply Hl; cbn; auto).
    destruct l; [inversion Hin | reflexivity].
Qed.

End MainFacts.

(** ** The retry budget of the query service *)

Lemma first_success_some budget :
  forall attempts k,
    first_success budget attempts = Some k ->
    k < budget /\ exists rest, attempts = repeat false k ++ true :: rest.
Proof.
  induction budget as [|budget IH]; intros attempts k; [discriminate|].
  cbn. destruct attempts as [|[] attempts]; try discriminate.
  - intros [= <-]. split; [lia|]. now exists attempts.
  - destruct (first_success budget attempts) as [k'|] eqn:E; [|discriminate].
    intros [= <-]. destruct (IH _ _ E) as (Hk & rest & ->).
    split; [lia|]. now exists rest.
Qed.

Lemma first_success_none budget :
  forall attempts,
    first_success budget attempts = None ->
    Forall (fun b => b = false) (take budget attempts).
Proof.
  induction budget as [|budget IH]; intros attempts; [constructor|].
  cbn. destruct attempts as [|[] attempts]; try discriminate.
  - constructor.
  - destruct (first_success budget attempts) eqn:E; [discriminate|].
    intros _. cbn. constructor; [reflexivity | now apply IH].
Qed.

Lemma get_async_db_pool_spec {V} (w : world V) :
  fst (get_async_db_pool w)
  = match first_success 5 (upcoming w) with
    | Some _ => Returned (Some tt)
    | None => Raised OperationalError
    end
  /\ trace (snd (get_async_db_pool w))
     = trace w ++ match first_success 5 (upcoming w) with
                  | Some k => failed_attempts k ++ [Connect true]
                  | None => failed_attempts 4 ++ [Connect false]
                  end
  /\ committed (snd (get_async_db_pool w)) = committed w.
Proof.
  unfold get_async_db_pool. cbv zeta.
  destruct (first_success 5 (upcoming w)) as [k|] eqn:E.
  - destruct (first_success_some _ _ _ E) as (Hk & rest & Hup).
    destruct (connect_loop_success k 1 5 w rest Hup Hk eq_refl)
      as (w' & -> & Ht & _ & Hc).
    auto.
  - pose proof (first_success_none _ _ E) as Hf.
    destruct (connect_loop_exhausted 5 1 w Hf) as (w' & -> & Ht & Hc);
      [lia | reflexivity |].
    auto.
Qed.

(** ** Running twice *)

Section Twice.
Context {V : Type}.

Lemma after_ingest_parallel_twice sink_row ciso8601 file t
    (d : gmap string (table V)) :
  after_ingest_parallel sink_row ciso8601 file t
    (after_ingest_parallel sink_row ciso8601 file t d)
  = after_ingest_parallel sink_row ciso8601 file t d.
Proof.
  unfold after_ingest_parallel.
  destruct (preparer_fails d t) eqn:E; [now rewrite E|].
  unfold preparer_fails at 1. rewrite lookup_insert_eq. cbn.
  now rewrite insert_insert_eq.
Qed.

Lemma after_ingest_data_twice values (d : gmap string (table V)) :
  after_ingest_data values (after_ingest_data values d)
  = after_ingest_data values d.
Proof. unfold after_ingest_data. now rewrite insert_insert_eq. Qed.

Lemma ingest_parallel_committed_eq sink_row ciso8601 num_cpus order file t
    (w : world V) rest :
  upcoming w = true :: rest ->
  run_order num_cpus file order ->
  committed (snd (ingest_parallel sink_row ciso8601 num_cpus order file t w))
  = after_ingest_parallel sink_row ciso8601 file t (committed w).
Proof.
  intros Hup Hord.
  destruct (ingest_parallel_committed sink_row ciso8601 num_cpus order file t
              w rest Hup Hord) as (w' & -> & Hc & _).
  exact Hc.
Qed.

Lemma ingest_data_committed_eq data_to_insert file (w : world V) rest :
  upcoming w = true :: rest ->
  committed (snd (ingest_data data_to_insert file w))
  = after_ingest_data (data_to_insert file) (committed w).
Proof.
  intros Hup.
  destruct (ingest_data_connected data_to_insert file w rest Hup)
    as (w' & evs & -> & (Hc & _) & _).
  exact Hc.
Qed.

(** Without a connection a run of [ingest_parallel] is the same whatever
    the pool does. *)
Lemma ingest_parallel_refused sink_row ciso8601 num_cpus order file t
    (w : world V) :
  head (upcoming w) <> Some true ->
  ingest_parallel sink_row ciso8601 num_cpus order file t w
  = (Returned tt, snd (get_db_connection w))
  /\ committed (snd (get_db_connection w)) = committed w
  /\ trace (snd (get_db_connection w)) = trace w ++ [Connect false].
Proof.
  intros Hup.
  destruct (get_db_connection_refused w Hup) as (w1 & Hc & Hd & _ & Ht).
  unfold ingest_parallel. rewrite (bind_returned _ _ _ _ _ Hc), Hc. auto.
Qed.

Lemma ingest_data_refused data_to_insert file (w : world V) :
  head (upcoming w) <> Some true ->
  ingest_data data_to_insert file w
  = (Returned tt, snd (get_db_connection w)).
Proof.
  intros Hup.
  destruct (get_db_connection_refused w Hup) as (w1 & Hc & _).
  unfold ingest_data. now rewrite (bind_returned _ _ _ _ _ Hc), Hc.
Qed.

End Twice.

(** ** The counts of the transform phase *)

Lemma transform_phase_counts ciso8601 order lines :
  Permutation order (seq 0 (length (get_tasks 1000 lines))) ->
  exists cleaned,
    transform_phase ciso8601 order lines
    = Returned
        (cleaned,
         length (filter (fun l => accepted ciso8601 l = true) lines),
         Z.of_nat (length (filter (fun l => rejected ciso8601 l = true) lines)))
    /\ Permutation cleaned (omap (normalize ciso8601) lines).
Proof.
  intros Hperm.
  destruct (transform_phase_cleaned ciso8601 order lines Hperm)
    as (cleaned & n & k & E & Hcl).
  exists cleaned. split; [|exact Hcl].
  rewrite E. rewrite transform_phase_eq in E. cbv zeta in E.
  injection E as <- <- <-.
  pose proof (transform_results_perm ciso8601 order lines Hperm) as Hres.
  pose proof (accepted_rejected_partition ciso8601 lines) as Hpart.
  assert (Hlen : length (omap id (concat (map (map (normalize ciso8601))
                   (omap (fun i => get_tasks 1000 lines !! i) order))))
                 = length (filter (fun l => accepted ciso8601 l = true) lines)).
  { rewrite Hres. apply omap_id_length_accepted. }
  rewrite Hlen. repeat f_equal. lia.
Qed.

(** * The claims *)

Import Examples.

(** C2: for every input file and every order in which the pool hands the
    tasks back, the transform phase returns, [cleaned_count + skipped_count]
    is the number of data lines (the lines after the header), the first
    counts the lines the normalizer accepts and the second those it rejects,
    and the cleaned lines are the rows of the accepted lines, each once. *)
Theorem transform_phase_counts_every_line_once
    ciso8601 processes order (file : list str) :
  completion_order processes (length (get_tasks 1000 (drop 1 file))) order ->
  exists cleaned_lines cleaned_count skipped_count,
    transform_phase ciso8601 order (drop 1 file)
    = Returned (cleaned_lines, cleaned_count, skipped_count)
    /\ (Z.of_nat cleaned_count + skipped_count
        = Z.of_nat (length (drop 1 file)))%Z
    /\ cleaned_count
       = length (filter (fun l => accepted ciso8601 l = true) (drop 1 file))
    /\ skipped_count
       = Z.of_nat
           (length (filter (fun l => rejected ciso8601 l = true) (drop 1 file)))
    /\ Permutation cleaned_lines (omap (normalize ciso8601) (drop 1 file)).
Proof.
  intros (_ & Hperm & _).
  destruct (transform_phase_counts ciso8601 order (drop 1 file) Hperm)
    as (cleaned & E & Hcl).
  pose proof (accepted_rejected_partition ciso8601 (drop 1 file)) as Hpart.
  eexists _, _, _. split; [exact E|].
  repeat split; [lia | exact Hcl].
Qed.

(** The scenario file, its three data lines in one task. *)
Lemma transform_phase_counts_witness :
  exists cleaned_lines cleaned_count skipped_count,
    transform_phase None [0] (drop 1 scenario_file)
    = Returned (cleaned_lines, cleaned_count, skipped_count)
    /\ (Z.of_nat cleaned_count + skipped_count
        = Z.of_nat (length (drop 1 scenario_file)))%Z
    /\ cleaned_count
       = length (filter (fun l => accepted None l = true)
                   (drop 1 scenario_file))
    /\ skipped_count
       = Z.of_nat
           (length (filter (fun l => rejected None l = true)
                      (drop 1 scenario_file)))
    /\ Permutation cleaned_lines (omap (normalize None) (drop 1 scenario_file)).
Proof.
  apply (transform_phase_counts_every_line_once None 4 [0] scenario_file).
  split; [lia|]. split; [reflexivity|]. intros; reflexivity.
Defined.

(** C3: of the three lines of the scenario the normalizer accepts the first
    two, with the rows (2021-05-01 00:00:00, 50.0) and
    (2021-05-01 00:00:01, 50.5), and rejects the third; with [ciso8601]
    installed this holds when it reads the two timestamps as written. *)
Theorem normalizer_scenario ciso8601 :
  parses ciso8601 (lit "2021-05-01 00:00:00")
    {| year := 2021; month := 5; day := 1;
       hour := 0; minute := 0; second := 0 |} ->
  parses ciso8601 (lit "2021-05-01 00:00:01")
    {| year := 2021; month := 5; day := 1;
       hour := 0; minute := 0; second := 1 |} ->
  map (transform_timestamp_fast ciso8601) [line1; line2; line3]
  = [Returned (Some (lit "2021-05-01 00:00:00,50" ++ [LF]));
     Returned (Some (lit "2021-05-01 00:00:01,50.5" ++ [LF]));
     Returned None]
  /\ row_of_line (lit "2021-05-01 00:00:00,50" ++ [LF])
     = Some (lit "2021-05-01 00:00:00", 50 # 1)
  /\ row_of_line (lit "2021-05-01 00:00:01,50.5" ++ [LF])
     = Some (lit "2021-05-01 00:00:01", 101 # 2).
Proof.
  intros H0 H1. split; [|split; reflexivity].
  destruct ciso8601 as [parse_datetime|]; [|reflexivity].
  vm_compute in H0. vm_compute in H1. vm_compute.
  rewrite H0, H1. reflexivity.
Qed.

(** The scenario without [ciso8601]. *)
Lemma normalizer_scenario_witness :
  map (transform_timestamp_fast None) [line1; line2; line3]
  = [Returned (Some (lit "2021-05-01 00:00:00,50" ++ [LF]));
     Returned (Some (lit "2021-05-01 00:00:01,50.5" ++ [LF]));
     Returned None]
  /\ row_of_line (lit "2021-05-01 00:00:00,50" ++ [LF])
     = Some (lit "2021-05-01 00:00:00", 50 # 1)
  /\ row_of_line (lit "2021-05-01 00:00:01,50.5" ++ [LF])
     = Some (lit "2021-05-01 00:00:01", 101 # 2).
Proof. apply (normalizer_scenario None); exact I. Defined.

(** C4, as stated, fails: the line the normalizer emits for the first line
    of the scenario is rejected when it is given back to the normalizer. *)
Lemma normalizer_not_idempotent :
  transform_timestamp_fast None line1
  = Returned (Some (lit "2021-05-01 00:00:00,50" ++ [LF]))
  /\ transform_timestamp_fast None (lit "2021-05-01 00:00:00,50" ++ [LF])
     = Returned None
  /\ transform_timestamp_fast None (lit "2021-05-01 00:00:00,50" ++ [LF])
     <> Returned (Some (lit "2021-05-01 00:00:00,50" ++ [LF])).
Proof. repeat split; [reflexivity..|discriminate]. Qed.

(** C4, amended: the normalizer is deterministic, and it rejects every line
    it emits: the emitted line is [timestamp,value] with no semicolon in
    it, so read as an input line it has a single field. *)
Theorem normalizer_rejects_its_own_output ciso8601 line out :
  transform_timestamp_fast ciso8601 line = Returned (Some out) ->
  (forall line', line' = line ->
                 transform_timestamp_fast ciso8601 line' = Returned (Some out))
  /\ transform_timestamp_fast ciso8601 out = Returned None.
Proof.
  intros H. split; [now intros line' ->|].
  apply transform_accepts_inv in H as (c0 & c1 & rest & ts & Hs & _ & Hts & ->).
  assert (Hc1 : no_chr ";" c1).
  { pose proof (split_pieces_no_sep ";" (rstrip_chr LF line)) as Hp.
    rewrite Hs in Hp. inversion Hp as [|? ? _ Hp']; subst.
    now inversion Hp'. }
  assert (Hout : no_chr ";"
                   (ts ++ lit "," ++ replace "," "." (strip_chr QUOTE (strip c1))
                       ++ [LF])).
  { apply no_chr_app; [|apply no_chr_app; [|apply no_chr_app]].
    - destruct ciso8601 as [parse_datetime|]; simpl in Hts.
      + destruct Hts as (iso & dt & _ & _ & ->). apply strftime_no_semicolon.
      + now apply canonical_layout_no_semicolon.
    - repeat constructor.
    - apply no_chr_replace; [reflexivity|].
      unfold strip_chr, strip. auto using no_chr_strip_by.
    - repeat constructor. }
  unfold transform_timestamp_fast, try_block.
  rewrite (split_no_sep ";" (rstrip_chr LF _)).
  - reflexivity.
  - unfold rstrip_chr, rstrip_by. auto using no_chr_rev, no_chr_lstrip.
Qed.

(** The first line of the scenario and its emitted line. *)
Lemma normalizer_rejects_its_own_output_witness :
  (forall line', line' = line1 ->
                 transform_timestamp_fast None line'
                 = Returned (Some (lit "2021-05-01 00:00:00,50" ++ [LF])))
  /\ transform_timestamp_fast None (lit "2021-05-01 00:00:00,50" ++ [LF])
     = Returned None.
Proof.
  apply (normalizer_rejects_its_own_output None line1). reflexivity.
Defined.





(** C1, as stated, fails: [COPY] treats a timestamp that is already there as
    an error.  Over a file whose two data lines carry the same timestamp,
    the statement fails, the run rolls back and the relation is left without
    a row. *)
Lemma copy_fails_on_duplicate_timestamps :
  copy_rows UtcSink.sink_row ∅
    [lit "2021-05-01 00:00:00,50" ++ [LF]; lit "2021-05-01 00:00:00,50" ++ [LF]]
  = None
  /\ trace (snd (ingest_parallel UtcSink.sink_row None 4 [0]
                   (Some duplicate_file) target (fresh_world [true])))
     = [Connect true; Execute (CREATE_TABLE target); Commit;
        Execute (CREATE_HYPERTABLE target true); Commit;
        Execute (TRUNCATE target); Commit; PoolStart 4;
        Execute (COPY target); Rollback; Close]
  /\ rows <$> (committed
                 (snd (ingest_parallel UtcSink.sink_row None 4 [0]
                         (Some duplicate_file) target (fresh_world [true])))
               !! target)
     = Some ∅.
Proof. repeat split; vm_compute; reflexivity. Qed.

(** C1, amended: neither entry point appends to the relation.  A run of
    [ingest_parallel] truncates it and a run of [ingest_data] drops and
    re-creates it, so a second run over the same file, whenever it gets its
    connection, leaves the database the first run left; and the insert of
    [ingest_data] keeps a row whose timestamp is already there, so that
    inserting the same values again changes nothing. *)
Theorem reingestion_leaves_the_same_database {V}
    (sink_row : str -> option (Z * V)) ciso8601
    (data_to_insert : option (list str) -> outcome (list (Z * V)))
    num_cpus num_cpus' order order' file t (w : world V) rest :
  upcoming w = true :: rest ->
  run_order num_cpus file order ->
  run_order num_cpus' file order' ->
  (forall w2 rest2,
      upcoming w2 = true :: rest2 ->
      committed w2
      = committed (snd (ingest_parallel sink_row ciso8601 num_cpus order
                          file t w)) ->
      committed (snd (ingest_parallel sink_row ciso8601 num_cpus' order'
                        file t w2))
      = committed w2)
  /\ (forall w2 rest2,
         upcoming w2 = true :: rest2 ->
         committed w2 = committed (snd (ingest_data data_to_insert file w)) ->
         committed (snd (ingest_data data_to_insert file w2)) = committed w2)
  /\ (forall (tb : gmap Z V) values,
         insert_do_nothing (insert_do_nothing tb values) values
         = insert_do_nothing tb values
         /\ forall k v, tb !! k = Some v ->
                        insert_do_nothing tb values !! k = Some v).
Proof.
  intros Hup Hord Hord'. split; [|split].
  - intros w2 rest2 Hup2 Hw2.
    rewrite (ingest_parallel_committed_eq _ _ _ _ _ _ _ _ Hup2 Hord'), Hw2.
    rewrite (ingest_parallel_committed_eq _ _ _ _ _ _ _ _ Hup Hord).
    apply after_ingest_parallel_twice.
  - intros w2 rest2 Hup2 Hw2.
    rewrite (ingest_data_committed_eq _ _ _ _ Hup2), Hw2.
    rewrite (ingest_data_committed_eq _ _ _ _ Hup).
    apply after_ingest_data_twice.
  - intros tb values. split; [apply insert_do_nothing_twice|].
    intros k v. apply insert_do_nothing_keeps.
Qed.

(** A file of two tasks, loaded with one worker and again with four. *)
Lemma reingestion_witness :
  (forall w2 rest2,
      upcoming w2 = true :: rest2 ->
      committed w2
      = committed (snd (ingest_parallel UtcSink.sink_row None 1 [0; 1]
                          (Some long_file) target (fresh_world [true]))) ->
      committed (snd (ingest_parallel UtcSink.sink_row None 4 [1; 0]
                        (Some long_file) target w2))
      = committed w2)
  /\ (forall w2 rest2,
         upcoming w2 = true :: rest2 ->
         committed w2
         = committed (snd (ingest_data no_rows (Some long_file)
                             (fresh_world [true]))) ->
         committed (snd (ingest_data no_rows (Some long_file) w2))
         = committed w2)
  /\ (forall (tb : gmap Z str) values,
         insert_do_nothing (insert_do_nothing tb values) values
         = insert_do_nothing tb values
         /\ forall k v, tb !! k = Some v ->
                        insert_do_nothing tb values !! k = Some v).
Proof.
  apply (reingestion_leaves_the_same_database UtcSink.sink_row None no_rows
           1 4 [0; 1] [1; 0] (Some long_file) target (fresh_world [true]) []).
  - reflexivity.
  - split; [lia|]. split; [reflexivity|]. intros _. reflexivity.
  - split; [lia|]. split; [|intros H; discriminate H].
    vm_compute. apply perm_swap.
Defined.




(** C8, as stated, fails: an ingestion run makes one connection attempt and
    gives up.  With a server that refuses the first attempt and would accept
    the second, [ingest_parallel] returns after the refusal and leaves the
    second attempt unused, where the retry loop of the query service
    connects. *)
Lemma ingestion_gives_up_after_one_attempt :
  ingest_parallel UtcSink.sink_row None 4 [0] (Some scenario_file) target
    (fresh_world [false; true])
  = (Returned tt,
     {| upcoming := [true]; committed := ∅; pending := ∅; aborted := false;
        trace := [Connect false] |})
  /\ get_async_db_pool (fresh_world [false; true])
     = (Returned (Some tt),
        {| upcoming := []; committed := ∅; pending := ∅; aborted := false;
           trace := [Connect false; Sleep 5; Connect true] |}).
Proof. split; vm_compute; reflexivity. Qed.

(** C8, amended: an ingestion run makes exactly one connection attempt, with
    no retry; when it fails the run returns at once, before the schema
    preparer and any transform work, and leaves the database as it was.  The
    bounded retry with a fixed delay is that of the query service: up to 5
    attempts, 5 seconds after each failure but the last, and the fifth
    failure is raised. *)
Theorem connection_acquisition {V}
    (sink_row : str -> option (Z * V)) ciso8601
    (data_to_insert : option (list str) -> outcome (list (Z * V)))
    num_cpus order file t (w : world V) :
  (exists ok evs,
      trace (snd (ingest_parallel sink_row ciso8601 num_cpus order file t w))
      = trace w ++ Connect ok :: evs
      /\ Forall quiet evs
      /\ ok = bool_decide (head (upcoming w) = Some true)
      /\ if ok then True
         else evs = []
              /\ ingest_parallel sink_row ciso8601 num_cpus order file t w
                 = ingest_data data_to_insert file w
              /\ committed
                   (snd (ingest_parallel sink_row ciso8601 num_cpus order
                           file t w))
                 = committed w)
  /\ fst (get_async_db_pool w)
     = match first_success 5 (upcoming w) with
       | Some _ => Returned (Some tt)
       | None => Raised OperationalError
       end
  /\ trace (snd (get_async_db_pool w))
     = trace w ++ match first_success 5 (upcoming w) with
                  | Some k => failed_attempts k ++ [Connect true]
                  | None => failed_attempts 4 ++ [Connect false]
                  end.
Proof.
  split.
  - destruct (ingest_parallel _ _ _ _ _ _ w) as [r w'] eqn:E.
    destruct (ingest_parallel_trace _ _ _ _ _ _ _ _ _ E)
      as (ok & evs & Ht & Hq & Hno & Hok).
    exists ok, evs. repeat split; try assumption.
    destruct ok; [exact I|].
    destruct (Hno eq_refl) as (-> & Hc). repeat split; [|exact Hc].
    symmetry in Hok. apply bool_decide_eq_false in Hok.
    rewrite (ingest_data_refused data_to_insert file w Hok).
    rewrite <- E. now apply ingest_parallel_refused.
  - destruct (get_async_db_pool_spec w) as (H1 & H2 & _). now split.
Qed.

(** C9: for every input file, a run with one worker and a run with [N]
    workers, each with any order in which its pool may hand the tasks back,
    give the same accepted count, the same rejected count, cleaned lines
    that are a rearrangement of each other, and the same committed
    database. *)
Theorem pool_size_does_not_change_the_outcome {V}
    (sink_row : str -> option (Z * V)) ciso8601 N order1 orderN
    (all_lines : list str) t (w : world V) :
  run_order 1 (Some all_lines) order1 ->
  run_order N (Some all_lines) orderN ->
  (exists cleaned1 cleanedN cleaned_count skipped_count,
      transform_phase ciso8601 order1 (drop 1 all_lines)
      = Returned (cleaned1, cleaned_count, skipped_count)
      /\ transform_phase ciso8601 orderN (drop 1 all_lines)
         = Returned (cleanedN, cleaned_count, skipped_count)
      /\ Permutation cleaned1 cleanedN)
  /\ committed (snd (ingest_parallel sink_row ciso8601 1 order1
                       (Some all_lines) t w))
     = committed (snd (ingest_parallel sink_row ciso8601 N orderN
                         (Some all_lines) t w)).
Proof.
  intros H1 HN. split.
  - destruct H1 as (_ & P1 & _), HN as (_ & PN & _).
    destruct (transform_phase_counts ciso8601 order1 _ P1) as (c1 & E1 & Q1).
    destruct (transform_phase_counts ciso8601 orderN _ PN) as (cN & EN & QN).
    eexists _, _, _, _. split; [exact E1|]. split; [exact EN|].
    now rewrite Q1, QN.
  - destruct (decide (head (upcoming w) = Some true)) as [Hup|Hup].
    + destruct (upcoming w) as [|b rest] eqn:Eu; [discriminate|].
      injection Hup as ->.
      rewrite (ingest_parallel_committed_eq _ _ _ _ _ _ _ _ Eu H1).
      now rewrite (ingest_parallel_committed_eq _ _ _ _ _ _ _ _ Eu HN).
    + destruct (ingest_parallel_refused sink_row ciso8601 1 order1
                  (Some all_lines) t w Hup) as (-> & _).
      destruct (ingest_parallel_refused sink_row ciso8601 N orderN
                  (Some all_lines) t w Hup) as (-> & _).
      reflexivity.
Qed.

(** A file of two tasks, handed back in order and in reverse. *)
Lemma pool_size_witness :
  (exists cleaned1 cleanedN cleaned_count skipped_count,
      transform_phase None [0; 1] (drop 1 long_file)
      = Returned (cleaned1, cleaned_count, skipped_count)
      /\ transform_phase None [1; 0] (drop 1 long_file)
         = Returned (cleanedN, cleaned_count, skipped_count)
      /\ Permutation cleaned1 cleanedN)
  /\ committed (snd (ingest_parallel UtcSink.sink_row None 1 [0; 1]
                       (Some long_file) target (fresh_world [true])))
     = committed (snd (ingest_parallel UtcSink.sink_row None 4 [1; 0]
                         (Some long_file) target (fresh_world [true]))).
Proof.
  apply (pool_size_does_not_change_the_outcome UtcSink.sink_row None 4
           [0; 1] [1; 0] long_file target (fresh_world [true])).
  - split; [lia|]. split; [reflexivity|]. intros _. reflexivity.
  - split; [lia|]. split; [|intros H; discriminate H].
    vm_compute. apply perm_swap.
Defined.

(** C10: for a well-formed request on a relation that exists, each of the
    two read operations answers with the HTTP status 404 exactly when the
    range holds no row of the relation, and with a list that is not empty
    exactly when it holds one. *)
Theorem query_service_404_on_empty_range {V}
    (fromisoformat : str -> outcome Z) (AVG : list V -> V)
    (db : gmap string (table V)) table_name start_time end_time resolution
    tb start_dt end_dt :
  parse_time fromisoformat start_time = Returned start_dt ->
  parse_time fromisoformat end_time = Returned end_dt ->
  db !! TableName_value table_name = Some tb ->
  (get_raw_data fromisoformat db table_name start_time end_time
   = HTTPException 404
   <-> ~ range_has_row tb start_dt end_dt)
  /\ ((exists body,
          get_raw_data fromisoformat db table_name start_time end_time
          = OK body /\ body <> [])
      <-> range_has_row tb start_dt end_dt)
  /\ (get_aggregated_data fromisoformat AVG db table_name start_time end_time
        resolution
      = HTTPException 404
      <-> ~ range_has_row tb start_dt end_dt)
  /\ ((exists body,
          get_aggregated_data fromisoformat AVG db table_name start_time
            end_time resolution
          = OK body /\ body <> [])
      <-> range_has_row tb start_dt end_dt).
Proof.
  intros Hs He Hdb.
  destruct (fetch_range_is_empty db _ tb start_dt end_dt Hdb)
    as (records & Hf & Hrow).
  unfold get_raw_data, get_aggregated_data, fetch_buckets.
  rewrite Hs, He, Hf. cbn [mbind outcome_bind].
  rewrite map_is_empty, group_by_bucket_is_empty.
  destruct (is_empty records) eqn:Ee.
  - assert (Hno : ~ range_has_row tb start_dt end_dt).
    { intros H. apply Hrow in H. discriminate. }
    repeat split; try tauto; try (intros (body & [=] & _));
      intros H; contradiction.
  - assert (Hyes : range_has_row tb start_dt end_dt) by now apply Hrow.
    repeat split; try discriminate; try tauto; intros _.
    + exists records. split; [reflexivity|]. now destruct records.
    + eexists. split; [reflexivity|].
      destruct records; [discriminate|]. cbn.
      intros H. apply (f_equal is_empty) in H.
      rewrite map_is_empty, group_insert_not_empty in H. discriminate.
Qed.

(** A relation with two rows and a range that holds them. *)
Lemma query_service_witness :
  (get_raw_data fromisoformat_utc measured Main.swissgrid_frequency_data
     (lit "2021-05-01T00:00:00Z") (lit "2021-05-01T00:00:02Z")
   = HTTPException 404
   <-> ~ range_has_row
           {| hypertable := true;
              rows := {[ 673142400000000%Z := 50 # 1;
                         673142401000000%Z := 101 # 2 ]} |}
           673142400000000 673142402000000)
  /\ ((exists body,
          get_raw_data fromisoformat_utc measured Main.swissgrid_frequency_data
            (lit "2021-05-01T00:00:00Z") (lit "2021-05-01T00:00:02Z")
          = OK body /\ body <> [])
      <-> range_has_row
            {| hypertable := true;
               rows := {[ 673142400000000%Z := 50 # 1;
                          673142401000000%Z := 101 # 2 ]} |}
            673142400000000 673142402000000)
  /\ (get_aggregated_data fromisoformat_utc mean measured
        Main.swissgrid_frequency_data
        (lit "2021-05-01T00:00:00Z") (lit "2021-05-01T00:00:02Z") m15
      = HTTPException 404
      <-> ~ range_has_row
              {| hypertable := true;
                 rows := {[ 673142400000000%Z := 50 # 1;
                            673142401000000%Z := 101 # 2 ]} |}
              673142400000000 673142402000000)
  /\ ((exists body,
          get_aggregated_data fromisoformat_utc mean measured
            Main.swissgrid_frequency_data
            (lit "2021-05-01T00:00:00Z") (lit "2021-05-01T00:00:02Z") m15
          = OK body /\ body <> [])
      <-> range_has_row
            {| hypertable := true;
               rows := {[ 673142400000000%Z := 50 # 1;
                          673142401000000%Z := 101 # 2 ]} |}
            673142400000000 673142402000000).
Proof.
  apply (query_service_404_on_empty_range fromisoformat_utc mean measured
           Main.swissgrid_frequency_data
           (lit "2021-05-01T00:00:00Z") (lit "2021-05-01T00:00:02Z") m15);
    reflexivity.
Defined.

(** * Further properties *)

Import Layout.

(** ** Slices, once more *)

Lemma lstrip_by_app_stop p a x r :
  p x = false -> lstrip_by p (a ++ x :: r) = lstrip_by p a ++ x :: r.
Proof.
  intros Hx. induction a as [|c a IH]; simpl.
  - now rewrite Hx.
  - destruct (p c); [exact IH | reflexivity].
Qed.

Lemma rstrip_by_app_stop p a x b :
  p x = false -> rstrip_by p (a ++ x :: b) = a ++ x :: rstrip_by p b.
Proof.
  intros Hx. unfold rstrip_by.
  rewrite rev_app_distr. simpl. rewrite <- app_assoc. simpl.
  rewrite (lstrip_by_app_stop p (rev b) x (rev a) Hx).
  rewrite rev_app_distr. simpl. rewrite rev_involutive, <- app_assoc.
  reflexivity.
Qed.

Lemma rstrip_by_snoc_drop p s c :
  p c = true -> rstrip_by p (s ++ [c]) = rstrip_by p s.
Proof.
  intros Hc. unfold rstrip_by. rewrite rev_app_distr. simpl. now rewrite Hc.
Qed.

Lemma rstrip_by_snoc_stop p s x :
  p x = false -> rstrip_by p (s ++ [x]) = s ++ [x].
Proof. intros Hx. now rewrite (rstrip_by_app_stop p s x [] Hx). Qed.

Lemma split_app_sep sep a b :
  no_chr sep a -> split sep (a ++ sep :: b) = a :: split sep b.
Proof.
  induction 1 as [|c a Hc _ IH]; simpl.
  - assert (chr_eqb sep sep = true) as -> by now apply chr_eqb_eq.
    reflexivity.
  - now rewrite Hc, IH.
Qed.

Lemma span_app_stop p ws x r :
  Forall (fun c => p c = true) ws -> p x = false ->
  span p (ws ++ x :: r) = (ws, x :: r).
Proof.
  intros Hws Hx. induction Hws as [|c ws Hc _ IH]; simpl.
  - now rewrite Hx.
  - now rewrite Hc, IH.
Qed.

Lemma isdigit_not_space c : isdigit c = true -> isspace c = false.
Proof.
  unfold isdigit, isspace, between. intros H.
  apply andb_prop in H as [H1 H2].
  apply Nat.leb_le in H1. apply Nat.leb_le in H2.
  repeat (apply orb_false_intro); try (apply andb_false_iff);
    rewrite ?Nat.leb_gt, ?Nat.eqb_neq; lia.
Qed.

Lemma isdigit_not_quote c : isdigit c = true -> chr_eqb QUOTE c = false.
Proof.
  unfold isdigit, between, chr_eqb. change (ord QUOTE) with 34.
  intros H. apply andb_prop in H as [H1 _]. apply Nat.leb_le in H1.
  apply Nat.eqb_neq. lia.
Qed.

(** ** The search skips what holds no digit *)

Lemma match_at_not_digit c s : isdigit c = false -> match_at (c :: s) = None.
Proof.
  intros Hc. unfold match_at.
  destruct s as [|d2 [|p1 [|m1 [|m2 [|p2 [|y1 [|y2 r]]]]]]]; try reflexivity.
  now rewrite Hc.
Qed.

Lemma re_search_skip pre s :
  Forall (fun c => isdigit c = false) pre ->
  re_search (pre ++ s) = re_search s.
Proof.
  induction 1 as [|c pre Hc _ IH]; [reflexivity|].
  cbn [app]. rewrite re_search_cons, match_at_not_digit by assumption.
  exact IH.
Qed.

Lemma digits_two s :
  digits 2 s ->
  exists a b, s = [a; b] /\ isdigit a = true /\ isdigit b = true.
Proof.
  intros [Hl Hd]. destruct s as [|a [|b [|? ?]]]; try discriminate.
  inversion Hd as [|? ? Ha Hd']; subst. inversion Hd' as [|? ? Hb _]; subst.
  eauto.
Qed.

Lemma re_search_source_timestamp pre day month year ws hh mm ss :
  Forall (fun c => isdigit c = false) pre ->
  digits 2 day -> digits 2 month -> digits 2 year ->
  ws <> [] -> Forall (fun c => isspace c = true) ws ->
  digits 2 hh -> digits 2 mm -> digits 2 ss ->
  re_search (pre ++ source_timestamp day month year ws hh mm ss)
  = Some (day, month, year, hh ++ lit ":" ++ mm ++ lit ":" ++ ss).
Proof.
  intros Hpre Hd Hm Hy Hws Hsp Hh Hn Hs.
  rewrite re_search_skip by assumption.
  apply digits_two in Hd as (d1 & d2 & -> & Hd1 & Hd2).
  apply digits_two in Hm as (m1 & m2 & -> & Hm1 & Hm2).
  apply digits_two in Hy as (y1 & y2 & -> & Hy1 & Hy2).
  apply digits_two in Hh as (h1 & h2 & -> & Hh1 & Hh2).
  apply digits_two in Hn as (n1 & n2 & -> & Hn1 & Hn2).
  apply digits_two in Hs as (s1 & s2 & -> & Hs1 & Hs2).
  unfold source_timestamp. cbn [app lit list_ascii_of_string].
  rewrite re_search_cons. unfold match_at.
  rewrite Hd1, Hd2, Hm1, Hm2, Hy1, Hy2. cbn [andb chr_eqb].
  change (chr_eqb "." ".") with true. cbn [andb].
  rewrite (span_app_stop isspace ws h1 _ Hsp (isdigit_not_space _ Hh1)).
  destruct ws as [|w ws]; [contradiction|].
  unfold match_time. rewrite Hh1, Hh2, Hn1, Hn2, Hs1, Hs2.
  reflexivity.
Qed.

Lemma Forall_lstrip_by (P : ascii -> Prop) p s :
  Forall P s -> Forall P (lstrip_by p s).
Proof.
  intros H. destruct (lstrip_by_suffix p s) as [pre E].
  rewrite E in H. now apply Forall_app in H as [_ H].
Qed.

Lemma strip_by_mid p a first mid last :
  p first = false -> p last = false ->
  strip_by p (a ++ first :: mid ++ [last])
  = lstrip_by p a ++ first :: mid ++ [last].
Proof.
  intros Hf Hl. unfold strip_by.
  rewrite (lstrip_by_app_stop p a first _ Hf).
  change (lstrip_by p a ++ first :: mid ++ [last])
    with (lstrip_by p a ++ (first :: mid) ++ [last]).
  rewrite app_assoc. apply rstrip_by_snoc_stop. exact Hl.
Qed.

Lemma isspace_not_semicolon c : isspace c = true -> chr_eqb c ";" = false.
Proof.
  unfold isspace, between, chr_eqb. change (ord ";") with 59.
  intros H. apply Nat.eqb_neq. intros E. rewrite E in H. discriminate.
Qed.

Lemma no_chr_rstrip c p s : no_chr c s -> no_chr c (rstrip_by p s).
Proof. intros H. unfold rstrip_by. auto using no_chr_rev, no_chr_lstrip. Qed.

(** The first field of a source line, as the normalizer searches it. *)
Lemma raw_ts_of_source prefix day month year ws hh mm ss :
  digits 2 day -> digits 2 ss ->
  exists pre,
    strip_chr QUOTE (strip (prefix ++ source_timestamp day month year ws hh mm ss))
    = pre ++ source_timestamp day month year ws hh mm ss
    /\ (Forall (fun c => isdigit c = false) prefix ->
        Forall (fun c => isdigit c = false) pre).
Proof.
  intros Hd Hs.
  apply digits_two in Hd as (d1 & d2 & -> & Hd1 & Hd2).
  apply digits_two in Hs as (s1 & s2 & -> & Hs1 & Hs2).
  unfold source_timestamp.
  set (mid := d2 :: lit "." ++ month ++ lit "." ++ year ++ ws ++ hh
                 ++ lit ":" ++ mm ++ lit ":" ++ [s1]).
  assert (E : [d1; d2] ++ lit "." ++ month ++ lit "." ++ year ++ ws ++ hh
              ++ lit ":" ++ mm ++ lit ":" ++ [s1; s2]
              = d1 :: mid ++ [s2]).
  { unfold mid. cbn [lit list_ascii_of_string].
    repeat (progress (cbn [app]; rewrite <- ?app_assoc)). reflexivity. }
  rewrite E. unfold strip, strip_chr.
  rewrite (strip_by_mid isspace prefix d1 mid s2)
    by now apply isdigit_not_space.
  rewrite (strip_by_mid (chr_eqb QUOTE) _ d1 mid s2)
    by now apply isdigit_not_quote.
  eexists. split; [reflexivity|].
  intros H. now do 2 apply Forall_lstrip_by.
Qed.

Lemma digits_no_semicolon n s : digits n s -> no_chr ";" s.
Proof.
  intros [_ H]. eapply Forall_impl; [exact H|].
  intros c. apply isdigit_not_semicolon.
Qed.

Lemma source_timestamp_no_semicolon day month year ws hh mm ss :
  digits 2 day -> digits 2 month -> digits 2 year ->
  Forall (fun c => isspace c = true) ws ->
  digits 2 hh -> digits 2 mm -> digits 2 ss ->
  no_chr ";" (source_timestamp day month year ws hh mm ss).
Proof.
  intros Hd Hm Hy Hws Hh Hn Hs. unfold source_timestamp.
  repeat first
    [ match goal with
      | |- no_chr _ (lit _) => repeat constructor
      | |- no_chr _ (_ ++ _) => apply no_chr_app
      end
    | solve [eapply digits_no_semicolon; eassumption]
    | solve [eapply Forall_impl; [exact Hws|]; intros c;
             apply isspace_not_semicolon] ].
Qed.

(** X1: a source line [prefix DD.MM.YY HH:MM:SS;value], whose prefix (the
    weekday abbreviation) holds no digit, is accepted exactly when [float]
    reads the value text, and the emitted line carries the timestamp
    [20YY-MM-DD HH:MM:SS] built from the same digits. *)
Theorem normalizer_reads_the_timestamp
    ciso8601 prefix day month year ws hh mm ss field :
  Forall (fun c => isdigit c = false) prefix ->
  no_chr ";" prefix ->
  digits 2 day -> digits 2 month -> digits 2 year ->
  ws <> [] -> Forall (fun c => isspace c = true) ws ->
  digits 2 hh -> digits 2 mm -> digits 2 ss ->
  no_chr ";" field ->
  transform_timestamp_fast ciso8601
    (prefix ++ source_timestamp day month year ws hh mm ss ++ lit ";" ++ field)
  = Returned
      (if float_accepts (value_text field)
       then (fun ts => ts ++ lit "," ++ value_text field ++ [LF])
              <$> rendered ciso8601 (iso_timestamp day month year hh mm ss)
       else None).
Proof.
  intros Hpre Hps Hd Hm Hy Hws Hsp Hh Hn Hs Hf.
  pose proof (source_timestamp_no_semicolon _ _ _ _ _ _ _ Hd Hm Hy Hsp Hh Hn Hs)
    as Hsrc.
  destruct (raw_ts_of_source prefix day month year ws hh mm ss Hd Hs)
    as (pre & Eraw & Hpre').
  specialize (Hpre' Hpre).
  pose proof (re_search_source_timestamp pre day month year ws hh mm ss
                Hpre' Hd Hm Hy Hws Hsp Hh Hn Hs) as Esearch.
  unfold transform_timestamp_fast, try_block, rstrip_chr.
  rewrite app_assoc. cbn [lit list_ascii_of_string app].
  rewrite (rstrip_by_app_stop (chr_eqb LF) _ ";"%char field) by reflexivity.
  rewrite split_app_sep by now apply no_chr_app.
  rewrite split_no_sep by now apply no_chr_rstrip.
  cbn [length Nat.ltb Nat.leb getitem nth_error mbind outcome_bind].
  change (rstrip_by (chr_eqb LF) field) with (rstrip_chr LF field).
  change (replace "," "." (strip_chr QUOTE (strip (rstrip_chr LF field))))
    with (value_text field).
  rewrite Eraw, Esearch. unfold float.
  destruct (float_accepts (value_text field)); [|reflexivity].
  cbn [mbind outcome_bind].
  unfold rendered, iso_timestamp.
  destruct ciso8601 as [parse_datetime|]; [|reflexivity].
  cbn [lit list_ascii_of_string app].
  rewrite <- ?app_assoc.
  destruct (parse_datetime _) as [dt|[]]; reflexivity.
Qed.

(** The first line of the scenario. *)
Lemma normalizer_reads_the_timestamp_witness :
  transform_timestamp_fast None
    (lit "Sa. " ++ source_timestamp (lit "01") (lit "05") (lit "21") (lit " ")
                     (lit "00") (lit "00") (lit "00") ++ lit ";" ++ lit "50")
  = Returned
      (if float_accepts (value_text (lit "50"))
       then (fun ts => ts ++ lit "," ++ value_text (lit "50") ++ [LF])
              <$> rendered None
                    (iso_timestamp (lit "01") (lit "05") (lit "21")
                       (lit "00") (lit "00") (lit "00"))
       else None).
Proof.
  apply (normalizer_reads_the_timestamp None (lit "Sa. ") (lit "01") (lit "05")
           (lit "21") (lit " ") (lit "00") (lit "00") (lit "00") (lit "50"));
    try (split; [reflexivity|]); repeat constructor; discriminate.
Defined.

(** X2: line feeds at the end of a line do not matter: a line and the same
    line followed by any number of line feeds are normalized alike. *)
Theorem normalizer_ignores_trailing_line_feeds ciso8601 line k :
  transform_timestamp_fast ciso8601 (line ++ repeat LF k)
  = transform_timestamp_fast ciso8601 line.
Proof.
  unfold transform_timestamp_fast, try_block.
  assert (E : rstrip_chr LF (line ++ repeat LF k) = rstrip_chr LF line).
  { induction k as [|k IH]; [now rewrite app_nil_r|].
    cbn [repeat]. rewrite repeat_cons, app_assoc.
    unfold rstrip_chr in *. now rewrite rstrip_by_snoc_drop. }
  now rewrite E.
Qed.

(** X3: a line that holds no semicolon has a single field and is rejected,
    whatever it holds; the empty line is one. *)
Theorem normalizer_rejects_a_single_field ciso8601 line :
  no_chr ";" line -> transform_timestamp_fast ciso8601 line = Returned None.
Proof.
  intros H. unfold transform_timestamp_fast, try_block.
  rewrite split_no_sep; [reflexivity|].
  unfold rstrip_chr. now apply no_chr_rstrip.
Qed.

(** A timestamp without its value. *)
Lemma normalizer_rejects_a_single_field_witness :
  transform_timestamp_fast None (lit "01.05.21 00:00:00") = Returned None.
Proof.
  apply (normalizer_rejects_a_single_field None (lit "01.05.21 00:00:00")).
  repeat constructor.
Defined.

(** ** One worker *)

Lemma omap_id_map {A B} (g : A -> option B) l : omap id (map g l) = omap g l.
Proof.
  induction l as [|x l IH]; [reflexivity|].
  cbn. destruct (g x); cbn; now rewrite IH.
Qed.

(** X4: with a pool of one worker the tasks come back in the order they were
    given, and the cleaned lines are the rows of the accepted lines in the
    order of the file. *)
Theorem single_worker_keeps_the_file_order ciso8601 order lines :
  completion_order 1 (length (get_tasks 1000 lines)) order ->
  transform_phase ciso8601 order lines
  = Returned
      (omap (normalize ciso8601) lines,
       length (filter (fun l => accepted ciso8601 l = true) lines),
       Z.of_nat (length (filter (fun l => rejected ciso8601 l = true) lines))).
Proof.
  intros (_ & Hperm & Hone).
  destruct (transform_phase_counts ciso8601 order lines Hperm)
    as (cleaned & E & _).
  rewrite E. rewrite transform_phase_eq in E. cbv zeta in E.
  injection E as <- _ _.
  rewrite (Hone eq_refl).
  pose proof (omap_lookup_seq [] (get_tasks 1000 lines)) as El.
  cbn [app length] in El. rewrite El.
  rewrite <- concat_map, get_tasks_concat by lia.
  now rewrite omap_id_map.
Qed.

(** The scenario file, one task. *)
Lemma single_worker_witness :
  transform_phase None [0] (drop 1 scenario_file)
  = Returned
      (omap (normalize None) (drop 1 scenario_file),
       length (filter (fun l => accepted None l = true) (drop 1 scenario_file)),
       Z.of_nat (length (filter (fun l => rejected None l = true)
                           (drop 1 scenario_file)))).
Proof.
  apply (single_worker_keeps_the_file_order None [0] (drop 1 scenario_file)).
  split; [lia|]. split; [reflexivity|]. intros _. reflexivity.
Defined.

(** ** The schema preparer without [clear_data] *)

Section Preparer.
Context {V : Type}.
Implicit Types (w : world V) (d : gmap string (table V)).

(** On a relation that is a hypertable already, the preparer without
    [clear_data] executes nothing. *)
Lemma ensure_ready t w tb :
  pending w !! t = Some tb -> hypertable tb = true ->
  ensure_table_and_hypertable t false w = (Returned tt, w).
Proof.
  intros Hp Hh. unfold ensure_table_and_hypertable.
  rewrite (bind_returned _ _ _ _ _ (table_exists_eq t w)), Hp.
  rewrite (bool_decide_true (is_Some (Some _))) by eauto. cbn [negb].
  rewrite (bind_returned (mret tt) _ w tt w) by reflexivity.
  rewrite (bind_returned _ _ _ _ _ (is_hypertable_eq t w)), Hp, Hh.
  cbn [negb].
  rewrite (bind_returned (mret tt) _ w tt w) by reflexivity.
  reflexivity.
Qed.

Lemma ensure_keep_spec t w d :
  clean w d ->
  if preparer_fails d t
  then exists e w', ensure_table_and_hypertable t false w = (Raised e, w')
                    /\ committed w' = d
  else exists w',
      ensure_table_and_hypertable t false w = (Returned tt, w')
      /\ clean w'
           (<[t := {| hypertable := true;
                      rows := match d !! t with
                              | Some tb => rows tb
                              | None => ∅
                              end |}]> d).
Proof.
  intros Hw. pose proof Hw as (Hc & Hp & Ha).
  unfold preparer_fails.
  destruct (d !! t) as [[h r]|] eqn:Ed; cbn [hypertable rows].
  - destruct h; cbn [negb andb].
    + exists w. split.
      * apply (ensure_ready t w {| hypertable := true; rows := r |});
          [now rewrite Hp | reflexivity].
      * now rewrite insert_id.
    + unfold ensure_table_and_hypertable.
      rewrite (bind_returned _ _ _ _ _ (table_exists_eq t w)), Hp, Ed.
      rewrite (bool_decide_true (is_Some (Some _))) by eauto. cbn [negb].
      rewrite (bind_returned (mret tt) _ w tt w) by reflexivity.
      rewrite (bind_returned _ _ _ _ _ (is_hypertable_eq t w)), Hp, Ed.
      cbn [hypertable negb].
      case_bool_decide as Hr; cbn [negb].
      * subst r.
        destruct (try_execute_commit_ok (CREATE_HYPERTABLE t true)
                    (fun e => match e with
                              | DatabaseError =>
                                  execute (CREATE_HYPERTABLE t false)
                              | _ => raise e
                              end) w d
                    (<[t := {| hypertable := true; rows := ∅ |}]> d) Hw)
          as (w1 & E1 & Hw1).
        { cbn. rewrite Ed. cbn. now rewrite decide_True by reflexivity. }
        rewrite (bind_returned _ _ _ _ _ E1). eauto.
      * destruct (execute_fails (CREATE_HYPERTABLE t true) w d Hw)
          as (w1 & E1 & Hc1 & Ha1).
        { cbn. rewrite Ed. cbn. now rewrite decide_False by assumption. }
        destruct (execute_aborted (CREATE_HYPERTABLE t false) w1 Ha1)
          as (w2 & E2 & Hc2 & _).
        exists DatabaseError, w2. split; [|congruence].
        apply bind_raised. apply bind_raised.
        unfold try_except. now rewrite E1.
  - unfold ensure_table_and_hypertable.
    rewrite (bind_returned _ _ _ _ _ (table_exists_eq t w)), Hp, Ed.
    rewrite (bool_decide_false (is_Some None)) by (intros [? ?]; discriminate).
    cbn [negb].
    destruct (execute_commit_ok (CREATE_TABLE t) w d
                (<[t := {| hypertable := false; rows := ∅ |}]> d) Hw)
      as (w1 & E1 & Hw1); [cbn; now rewrite Ed|].
    rewrite (bind_returned _ _ _ _ _ E1).
    pose proof Hw1 as (_ & Hp1 & _).
    rewrite (bind_returned _ _ _ _ _ (is_hypertable_eq t w1)), Hp1.
    rewrite lookup_insert_eq. cbn [hypertable negb].
    destruct (try_execute_commit_ok (CREATE_HYPERTABLE t true)
                (fun e => match e with
                          | DatabaseError =>
                              execute (CREATE_HYPERTABLE t false)
                          | _ => raise e
                          end) w1 _
                (<[t := {| hypertable := true; rows := ∅ |}]> d) Hw1)
      as (w2 & E2 & Hw2).
    { cbn. rewrite lookup_insert_eq. cbn.
      rewrite decide_True by reflexivity. now rewrite insert_insert_eq. }
    rewrite (bind_returned _ _ _ _ _ E2). eauto.
Qed.

End Preparer.

Import MoreExamples.

(** X5: from a connection that has no open work, and unless the relation is
    a plain table that holds rows, the schema preparer returns and leaves
    the relation a hypertable, empty with [clear_data] and with the rows it
    had without it (none when it was missing); every other relation is as
    it was. *)
Theorem preparer_postcondition {V} t clear_data (w : world V) d :
  clean w d -> preparer_fails d t = false ->
  exists w',
    ensure_table_and_hypertable t clear_data w = (Returned tt, w')
    /\ committed w' !! t
       = Some {| hypertable := true;
                 rows := if clear_data then ∅
                         else match d !! t with
                              | Some tb => rows tb
                              | None => ∅
                              end |}
    /\ (forall t', t' <> t -> committed w' !! t' = d !! t')
    /\ pending w' = committed w' /\ aborted w' = false.
Proof.
  intros Hw Hf. destruct clear_data.
  - pose proof (ensure_table_and_hypertable_spec t w d Hw) as H.
    rewrite Hf in H. destruct H as (w' & E & Hc & Hp & Ha).
    exists w'. split; [exact E|]. rewrite Hp, Hc.
    repeat split; [apply lookup_insert_eq | | assumption].
    intros t' Hne. now rewrite lookup_insert_ne.
  - pose proof (ensure_keep_spec t w d Hw) as H.
    rewrite Hf in H. destruct H as (w' & E & Hc & Hp & Ha).
    exists w'. split; [exact E|]. rewrite Hp, Hc.
    repeat split; [apply lookup_insert_eq | | assumption].
    intros t' Hne. now rewrite lookup_insert_ne.
Qed.

(** A relation that holds a row, prepared without [clear_data]. *)
Lemma preparer_postcondition_witness :
  exists w',
    ensure_table_and_hypertable target false (stored_world [true])
    = (Returned tt, w')
    /\ committed w' !! target
       = Some {| hypertable := true;
                 rows := match stored !! target with
                         | Some tb => rows tb
                         | None => ∅
                         end |}
    /\ (forall t', t' <> target -> committed w' !! t' = stored !! t')
    /\ pending w' = committed w' /\ aborted w' = false.
Proof.
  apply (preparer_postcondition target false (stored_world [true]) stored).
  - repeat split.
  - reflexivity.
Defined.

(** X6: the schema preparer is idempotent: once it has returned, a further
    call without [clear_data] executes no statement and leaves the world as
    it is. *)
Theorem preparer_is_idempotent {V} t clear_data (w : world V) d w1 :
  clean w d ->
  ensure_table_and_hypertable t clear_data w = (Returned tt, w1) ->
  ensure_table_and_hypertable t false w1 = (Returned tt, w1).
Proof.
  intros Hw E.
  destruct (preparer_fails d t) eqn:Hf.
  - exfalso. destruct clear_data.
    + pose proof (ensure_table_and_hypertable_spec t w d Hw) as H.
      rewrite Hf in H. destruct H as (e & w' & E' & _). congruence.
    + pose proof (ensure_keep_spec t w d Hw) as H.
      rewrite Hf in H. destruct H as (e & w' & E' & _). congruence.
  - destruct (preparer_postcondition t clear_data w d Hw Hf)
      as (w' & E' & Hl & _ & Hp & _).
    assert (w' = w1) as -> by congruence.
    eapply ensure_ready; [rewrite Hp; exact Hl | reflexivity].
Qed.

(** A sink with no relation, prepared twice. *)
Lemma preparer_is_idempotent_witness :
  ensure_table_and_hypertable target false
    (snd (ensure_table_and_hypertable target true (fresh_world [])))
  = (Returned tt,
     snd (ensure_table_and_hypertable target true (fresh_world []))).
Proof.
  apply (preparer_is_idempotent target true (fresh_world []) ∅).
  - repeat split.
  - reflexivity.
Defined.

(** X7: when the target exists as a plain table that holds rows,
    [create_hypertable] is refused, and refused again in the failed
    transaction; [ingest_parallel] rolls back and returns without having
    truncated, transformed or loaded anything, and the database is as it
    was. *)
Theorem plain_table_with_rows_is_left_alone {V}
    (sink_row : str -> option (Z * V)) ciso8601 num_cpus order file t
    (w : world V) rest tb :
  upcoming w = true :: rest ->
  committed w !! t = Some tb -> hypertable tb = false -> rows tb <> ∅ ->
  exists w',
    ingest_parallel sink_row ciso8601 num_cpus order file t w
    = (Returned tt, w')
    /\ committed w' = committed w
    /\ trace w'
       = trace w ++ [Connect true; Execute (CREATE_HYPERTABLE t true);
                     Execute (CREATE_HYPERTABLE t false); Rollback; Close].
Proof.
  intros Hup Hl Hh Hr. destruct w as [up c p a tr]. cbn in *. subst up.
  destruct tb as [h r]. cbn in *. subst h.
  unfold ingest_parallel, get_db_connection, connect,
    ensure_table_and_hypertable, table_exists, is_hypertable, execute,
    run_statement, rollback, close.
  io_unfold. cbn.
  repeat (progress (rewrite ?Hl, ?(decide_False (P := r = ∅)) by assumption;
                    cbn)).
  eexists. split; [reflexivity|]. cbn. split; [reflexivity|].
  now rewrite <- !app_assoc.
Qed.

(** A plain table with one row. *)
Lemma plain_table_witness :
  exists w',
    ingest_parallel UtcSink.sink_row None 4 [0] (Some scenario_file) target
      (plain_world [true])
    = (Returned tt, w')
    /\ committed w' = committed (plain_world [true])
    /\ trace w'
       = trace (plain_world [true])
         ++ [Connect true; Execute (CREATE_HYPERTABLE target true);
             Execute (CREATE_HYPERTABLE target false); Rollback; Close].
Proof.
  apply (plain_table_with_rows_is_left_alone UtcSink.sink_row None 4 [0]
           (Some scenario_file) target (plain_world [true]) []
           {| hypertable := false; rows := {[ 0%Z := lit "50" ]} |}).
  - reflexivity.
  - reflexivity.
  - reflexivity.
  - intros H. apply (f_equal (fun m => m !! 0%Z)) in H. discriminate H.
Defined.

(** ** What a run loads *)

Import Coordinator.

Section Loading.
Context {V : Type}.
Variable sink_row : str -> option (Z * V).

Lemma copy_rows_spec records :
  forall (t m : gmap Z V),
    copy_rows sink_row t records = Some m ->
    size m = size t + length records
    /\ forall k v,
         m !! k = Some v
         <-> t !! k = Some v
             \/ exists r, r ∈ records /\ sink_row r = Some (k, v).
Proof.
  induction records as [|r records IH]; intros t m.
  - intros [= <-]. split; [cbn; lia|]. intros k v. split; [auto|].
    intros [H|(r & Hr & _)]; [exact H | inversion Hr].
  - cbn. destruct (sink_row r) as [[k0 v0]|] eqn:Er; [|discriminate].
    destruct (t !! k0) eqn:Et; [discriminate|].
    intros H. destruct (IH _ _ H) as (Hsize & Hlook). split.
    + rewrite Hsize, map_size_insert_None by assumption. lia.
    + intros k v. rewrite Hlook. split.
      * intros [Hi|(r' & Hr' & Hs)].
        -- destruct (decide (k0 = k)) as [->|Hne].
           ++ rewrite lookup_insert_eq in Hi. injection Hi as <-.
              right. exists r. split; [left | exact Er].
           ++ rewrite lookup_insert_ne in Hi by assumption. now left.
        -- right. exists r'. split; [now right | exact Hs].
      * intros [Ht|(r' & Hr' & Hs)].
        -- left. rewrite lookup_insert_ne; [exact Ht | congruence].
        -- apply elem_of_cons in Hr' as [->|Hr'].
           ++ left. rewrite Er in Hs. injection Hs as -> ->.
              apply lookup_insert_eq.
           ++ right. eauto.
Qed.

(** [COPY] takes the records exactly when the sink reads every one of them
    and no timestamp comes twice or is there already. *)
Lemma copy_rows_succeeds records :
  forall (t : gmap Z V),
    is_Some (copy_rows sink_row t records)
    <-> exists kvs,
          mapM sink_row records = Some kvs
          /\ NoDup (kvs.*1)
          /\ Forall (fun k => t !! k = None) (kvs.*1).
Proof.
  induction records as [|r records IH]; intros t.
  - cbn. split; [|eauto]. intros _. exists []. repeat constructor.
  - cbn. destruct (sink_row r) as [[k0 v0]|] eqn:Er; cbn.
    + destruct (t !! k0) eqn:Et.
      * split; [intros [? [=]]|].
        intros (kvs & Hm & _ & Hf).
        destruct (mapM sink_row records) as [kvs'|]; [|discriminate].
        cbn in Hm. injection Hm as <-. cbn in Hf.
        inversion Hf; subst. congruence.
      * rewrite IH. split.
        -- intros (kvs & Hm & Hnd & Hf). exists ((k0, v0) :: kvs).
           rewrite Hm. cbn. split; [reflexivity|]. split.
           ++ constructor; [|exact Hnd]. intros Hin.
              rewrite Forall_forall in Hf. specialize (Hf _ Hin).
              now rewrite lookup_insert_eq in Hf.
           ++ constructor; [exact Et|].
              eapply Forall_impl; [exact Hf|]. intros k Hk. cbn in Hk.
              destruct (decide (k0 = k)) as [->|Hne].
              ** now rewrite lookup_insert_eq in Hk.
              ** now rewrite lookup_insert_ne in Hk.
        -- intros (kvs & Hm & Hnd & Hf).
           destruct (mapM sink_row records) as [kvs'|]; [|discriminate].
           cbn in Hm. injection Hm as <-. cbn in Hnd, Hf.
           inversion Hnd as [|? ? Hnin Hnd']; subst.
           inversion Hf as [|? ? _ Hf']; subst.
           exists kvs'. split; [reflexivity|]. split; [exact Hnd'|].
           rewrite Forall_forall in Hf' |- *. intros k Hk.
           rewrite lookup_insert_ne; [now apply Hf'|].
           intros ->. contradiction.
    + split; [intros [? [=]]|]. intros (kvs & [=] & _).
Qed.

End Loading.

(** X8: a run of [ingest_parallel] that gets its connection, on a target
    the schema preparer accepts, returns with no work left open; the target
    is then a hypertable that holds the rows loaded from the file and none
    of the rows it held before, and every other relation is as it was. *)
Theorem ingest_parallel_replaces_the_rows {V}
    (sink_row : str -> option (Z * V)) ciso8601 num_cpus order file t
    (w : world V) rest :
  upcoming w = true :: rest ->
  run_order num_cpus file order ->
  preparer_fails (committed w) t = false ->
  exists w',
    ingest_parallel sink_row ciso8601 num_cpus order file t w
    = (Returned tt, w')
    /\ committed w' !! t
       = Some {| hypertable := true;
                 rows := loaded_rows sink_row ciso8601 file |}
    /\ (forall t', t' <> t -> committed w' !! t' = committed w !! t')
    /\ pending w' = committed w' /\ aborted w' = false.
Proof.
  intros Hup Hord Hf.
  destruct (ingest_parallel_committed sink_row ciso8601 num_cpus order file t
              w rest Hup Hord) as (w' & E & Hc & Hp & Ha).
  unfold after_ingest_parallel in Hc, Hp. rewrite Hf in Hc, Hp.
  exists w'. split; [exact E|]. rewrite Hp, Hc.
  repeat split; [apply lookup_insert_eq | | exact Ha].
  intros t' Hne. now rewrite lookup_insert_ne.
Qed.

(** A relation that holds a row, and the scenario file. *)
Lemma ingest_parallel_replaces_the_rows_witness :
  exists w',
    ingest_parallel UtcSink.sink_row None 4 [0] (Some scenario_file) target
      (stored_world [true])
    = (Returned tt, w')
    /\ committed w' !! target
       = Some {| hypertable := true;
                 rows := loaded_rows UtcSink.sink_row None
                           (Some scenario_file) |}
    /\ (forall t', t' <> target ->
                  committed w' !! t' = committed (stored_world [true]) !! t')
    /\ pending w' = committed w' /\ aborted w' = false.
Proof.
  apply (ingest_parallel_replaces_the_rows UtcSink.sink_row None 4 [0]
           (Some scenario_file) target (stored_world [true]) []).
  - reflexivity.
  - split; [lia|]. split; [reflexivity|]. intros _. reflexivity.
  - reflexivity.
Defined.

(** X9: the load is all or nothing.  [COPY] takes the cleaned lines exactly
    when the sink reads every one of them and no two carry the same
    timestamp; then the relation holds one row for each accepted data line,
    the row the sink reads from its cleaned line; otherwise it holds no
    row. *)
Theorem load_is_all_or_nothing {V}
    (sink_row : str -> option (Z * V)) ciso8601 (all_lines : list str) :
  (is_Some (copy_rows sink_row ∅
              (omap (normalize ciso8601) (drop 1 all_lines)))
   <-> exists kvs,
         mapM sink_row (omap (normalize ciso8601) (drop 1 all_lines))
         = Some kvs
         /\ NoDup (kvs.*1))
  /\ match copy_rows sink_row ∅
             (omap (normalize ciso8601) (drop 1 all_lines)) with
     | Some _ =>
         size (loaded_rows sink_row ciso8601 (Some all_lines))
         = length (filter (fun l => accepted ciso8601 l = true)
                     (drop 1 all_lines))
         /\ forall k v,
              loaded_rows sink_row ciso8601 (Some all_lines) !! k = Some v
              <-> exists line row,
                    line ∈ drop 1 all_lines
                    /\ normalize ciso8601 line = Some row
                    /\ sink_row row = Some (k, v)
     | None => loaded_rows sink_row ciso8601 (Some all_lines) = ∅
     end.
Proof.
  split.
  - rewrite copy_rows_succeeds. split.
    + intros (kvs & Hm & Hnd & _). eauto.
    + intros (kvs & Hm & Hnd). exists kvs. repeat split; try assumption.
      apply Forall_forall. intros k _. apply lookup_empty.
  - unfold loaded_rows.
    destruct (copy_rows sink_row ∅ _) as [m|] eqn:E; [|reflexivity].
    destruct (copy_rows_spec sink_row _ _ _ E) as (Hsize & Hlook). split.
    + rewrite Hsize, map_size_empty. cbn.
      rewrite <- omap_id_map. apply omap_id_length_accepted.
    + intros k v. rewrite Hlook, lookup_empty. split.
      * intros [[=]|(row & Hrow & Hs)].
        apply list_elem_of_omap in Hrow as (line & Hline & Hn). eauto.
      * intros (line & row & Hline & Hn & Hs). right. exists row.
        split; [|exact Hs]. apply list_elem_of_omap. eauto.
Qed.

(** The schema preparer adds to the trace only its own statements and
    commits. *)
Lemma ensure_table_and_hypertable_preparing {V} t clear_data :
  emits (V:=V) preparing (ensure_table_and_hypertable t clear_data).
Proof. unfold ensure_table_and_hypertable. emits_auto. Qed.

(** X10: a run of [ingest_parallel] over a file without data lines (a
    missing file, an empty one, or a header alone), on a target the schema
    preparer accepts, still prepares and truncates the target, so that the
    rows it held are gone; it starts no pool and executes no [COPY], and
    ends with a rollback when the file is missing and with the connection
    closed twice otherwise. *)
Theorem run_without_data_lines {V}
    (sink_row : str -> option (Z * V)) ciso8601 num_cpus order file t
    (w : world V) rest :
  upcoming w = true :: rest ->
  preparer_fails (committed w) t = false ->
  no_data_lines file ->
  exists w' evs,
    ingest_parallel sink_row ciso8601 num_cpus order file t w
    = (Returned tt, w')
    /\ committed w' !! t = Some {| hypertable := true; rows := ∅ |}
    /\ trace w' = trace w ++ Connect true :: evs ++ ending file
    /\ Forall preparing evs.
Proof.
  intros Hup Hf Hfile.
  destruct (get_db_connection_ok w rest Hup) as (w1 & Hconn & Hw1 & _ & Ht1).
  pose proof (ensure_table_and_hypertable_spec t w1 _ Hw1) as Hens.
  rewrite Hf in Hens. destruct Hens as (w2 & Hens & Hc2 & Hp2 & Ha2).
  destruct (ensure_table_and_hypertable_preparing t true _ _ _ Hens)
    as (evs & Ht2 & Hevs).
  unfold ingest_parallel.
  rewrite (bind_returned _ _ _ _ _ Hconn). cbn [negb].
  unfold try_finally, try_except.
  rewrite (bind_returned _ _ _ _ _ Hens).
  destruct file as [all_lines|]; cbn [readlines no_data_lines ending] in *.
  - assert (drop 1 all_lines = []) as Ed.
    { destruct all_lines as [|x [|y l]]; cbn in *; try reflexivity. lia. }
    rewrite (bind_returned (mret all_lines) _ w2 all_lines w2) by reflexivity.
    rewrite Ed. cbn.
    eexists _, evs. split; [reflexivity|]. cbn.
    rewrite Hc2, lookup_insert_eq, Ht2, Ht1, <- !app_assoc.
    repeat split. exact Hevs.
  - rewrite (bind_raised (raise FileNotFoundError) _ w2 FileNotFoundError w2)
      by reflexivity.
    cbn.
    eexists _, evs. split; [reflexivity|]. cbn.
    rewrite Hc2, lookup_insert_eq, Ht2, Ht1, <- !app_assoc.
    repeat split. exact Hevs.
Qed.

(** A relation that holds a row, and a path with no file. *)
Lemma run_without_data_lines_witness :
  exists w' evs,
    ingest_parallel UtcSink.sink_row None 4 [] None target (stored_world [true])
    = (Returned tt, w')
    /\ committed w' !! target = Some {| hypertable := true; rows := ∅ |}
    /\ trace w' = trace (stored_world [true])
                  ++ Connect true :: evs ++ ending None
    /\ Forall preparing evs.
Proof.
  apply (run_without_data_lines UtcSink.sink_row None 4 [] None target
           (stored_world [true]) []).
  - reflexivity.
  - reflexivity.
  - exact I.
Defined.

(** ** [ingest_data]: the first value of a timestamp wins *)

Lemma insert_do_nothing_lookup {V} (values : list (Z * V)) :
  forall (t : gmap Z V) k,
    insert_do_nothing t values !! k
    = match t !! k with
      | Some v => Some v
      | None => first_value k values
      end.
Proof.
  induction values as [|[k' v'] values IH]; intros t k; cbn.
  - now destruct (t !! k).
  - destruct (t !! k') eqn:Ek'; rewrite IH.
    + destruct (t !! k) eqn:Ek; [reflexivity|].
      rewrite decide_False; [reflexivity | congruence].
    + destruct (decide (k' = k)) as [->|Hne].
      * now rewrite lookup_insert_eq, Ek'.
      * now rewrite lookup_insert_ne.
Qed.

(** X11: a run of [ingest_data] that gets its connection returns and leaves
    a new relation, a hypertable, in which each timestamp has the first
    value the file gives for it (a later value of the same timestamp is
    ignored), and which is empty when reading the file raised; nothing of
    what the relation held before is left, and every other relation is as
    it was. *)
Theorem ingest_data_first_value_wins {V}
    (data_to_insert : option (list str) -> outcome (list (Z * V)))
    file (w : world V) rest :
  upcoming w = true :: rest ->
  exists w' tb,
    ingest_data data_to_insert file w = (Returned tt, w')
    /\ committed w' !! Ingestion.swissgrid_frequency_data = Some tb
    /\ hypertable tb = true
    /\ (forall k,
           rows tb !! k
           = match data_to_insert file with
             | Returned values => first_value k values
             | Raised _ => None
             end)
    /\ (forall t', t' <> Ingestion.swissgrid_frequency_data ->
                   committed w' !! t' = committed w !! t').
Proof.
  intros Hup.
  destruct (ingest_data_connected data_to_insert file w rest Hup)
    as (w' & evs & E & (Hc & _) & _).
  unfold after_ingest_data in Hc.
  eexists w', _. split; [exact E|]. rewrite Hc.
  split; [apply lookup_insert_eq|]. split; [reflexivity|]. split.
  - intros k. cbn. destruct (data_to_insert file) as [values|e].
    + now rewrite insert_do_nothing_lookup, lookup_empty.
    + apply lookup_empty.
  - intros t' Hne. now rewrite lookup_insert_ne.
Qed.

(** A relation that holds a row, and values where a timestamp comes
    twice. *)
Lemma ingest_data_first_value_wins_witness :
  exists w' tb,
    ingest_data two_values (Some [header]) (stored_world [true])
    = (Returned tt, w')
    /\ committed w' !! Ingestion.swissgrid_frequency_data = Some tb
    /\ hypertable tb = true
    /\ (forall k,
           rows tb !! k
           = match two_values (Some [header]) with
             | Returned values => first_value k values
             | Raised _ => None
             end)
    /\ (forall t', t' <> Ingestion.swissgrid_frequency_data ->
                   committed w' !! t'
                   = committed (stored_world [true]) !! t').
Proof.
  apply (ingest_data_first_value_wins two_values (Some [header])
           (stored_world [true]) []).
  reflexivity.
Defined.

(** X12: [get_file_line_count] agrees with the number of data lines that
    [ingest_parallel] reads (the lines after the first) on every file that
    has a line; on an empty file it returns -1, and 0 when there is no
    file. *)
Theorem get_file_line_count_and_data_lines (lines : list str) :
  (lines <> [] ->
   get_file_line_count (Some lines) = Z.of_nat (length (drop 1 lines)))
  /\ get_file_line_count (Some []) = (-1)%Z
  /\ get_file_line_count None = 0%Z.
Proof.
  split; [|split; reflexivity].
  intros H. destruct lines as [|l lines]; [contradiction|].
  cbn [get_file_line_count length drop]. rewrite drop_0. lia.
Qed.

(** ** The query service: what the two read operations return *)

Section Ordering.
Context {A : Type}.
Implicit Types (l : list (Z * A)).

Lemma insert_by_key_perm x l : Permutation (insert_by_key x l) (x :: l).
Proof.
  induction l as [|y l IH]; cbn; [reflexivity|].
  destruct (_ <=? _)%Z; [reflexivity|].
  rewrite IH. apply perm_swap.
Qed.

Lemma order_by_key_perm l : Permutation (order_by_key l) l.
Proof.
  induction l as [|x l IH]; [reflexivity|].
  cbn. rewrite insert_by_key_perm. now constructor.
Qed.

Lemma insert_by_key_sorted x l :
  StronglySorted (fun a b => (fst a <= fst b)%Z) l ->
  StronglySorted (fun a b => (fst a <= fst b)%Z) (insert_by_key x l).
Proof.
  induction 1 as [|y l Hs IH Hy]; cbn.
  - repeat constructor.
  - destruct (Z.leb_spec (fst x) (fst y)) as [Hle|Hgt].
    + constructor; [now constructor|]. constructor; [exact Hle|].
      eapply Forall_impl; [exact Hy|]. cbn. intros z Hz. lia.
    + constructor; [exact IH|].
      rewrite insert_by_key_perm. constructor; [lia | exact Hy].
Qed.

Lemma order_by_key_sorted l :
  StronglySorted (fun a b => (fst a <= fst b)%Z) (order_by_key l).
Proof.
  induction l as [|x l IH]; cbn; [constructor|].
  now apply insert_by_key_sorted.
Qed.

Lemma sorted_strict l :
  StronglySorted (fun a b => (fst a <= fst b)%Z) l -> NoDup (l.*1) ->
  StronglySorted (fun a b => (fst a < fst b)%Z) l.
Proof.
  induction 1 as [|x l Hs IH Hx]; cbn; intros Hnd; [constructor|].
  inversion Hnd as [|? ? Hnin Hnd']; subst.
  constructor; [now apply IH|].
  rewrite Forall_forall in Hx |- *. intros y Hy.
  specialize (Hx y Hy).
  assert (fst x <> fst y).
  { intros E. apply Hnin. rewrite E. apply list_elem_of_fmap. eauto. }
  lia.
Qed.

End Ordering.

(** The records of the range query: the rows of the relation in the range,
    by ascending timestamp. *)
Lemma fetch_range_records {V} (db : gmap string (table V)) t tb
    start_dt end_dt :
  db !! t = Some tb ->
  exists records,
    fetch_range db t start_dt end_dt = Returned records
    /\ StronglySorted (fun a b => (fst a < fst b)%Z) records
    /\ forall k v,
         (k, v) ∈ records
         <-> rows tb !! k = Some v /\ (start_dt <= k <= end_dt)%Z.
Proof.
  intros Hdb. unfold fetch_range. rewrite Hdb.
  eexists. split; [reflexivity|].
  set (l := filter _ _).
  assert (Hl : forall k v, (k, v) ∈ l
                 <-> rows tb !! k = Some v /\ (start_dt <= k <= end_dt)%Z).
  { intros k v. unfold l. rewrite list_elem_of_filter, in_range_spec.
    rewrite elem_of_map_to_list. cbn. tauto. }
  split.
  - apply sorted_strict; [apply order_by_key_sorted|].
    rewrite order_by_key_perm. unfold l.
    eapply sublist_NoDup; [apply (NoDup_fst_map_to_list (rows tb))|].
    apply fmap_sublist, sublist_filter.
  - intros k v. rewrite order_by_key_perm. apply Hl.
Qed.

Import Query.

Section Grouping.
Context {V : Type}.
Implicit Types (groups : list (Z * list V)).

Lemma values_of_below b groups :
  Forall (fun g => (b < fst g)%Z) groups -> values_of b groups = [].
Proof.
  induction 1 as [|[b' vs] groups Hb _ IH]; [reflexivity|].
  cbn in *. destruct (Z.eqb_spec b b'); [lia | exact IH].
Qed.

Lemma group_insert_keys b (v : V) groups :
  forall g, g ∈ group_insert b v groups ->
            fst g = b \/ exists g', g' ∈ groups /\ fst g' = fst g.
Proof.
  induction groups as [|[b' vs] groups IH]; cbn; intros g Hg.
  - apply list_elem_of_singleton in Hg as ->. now left.
  - destruct (Z.eqb_spec b b') as [->|Hne].
    + apply elem_of_cons in Hg as [->|Hg].
      * now left.
      * right. exists g. split; [now right | reflexivity].
    + destruct (b <? b')%Z.
      * apply elem_of_cons in Hg as [->|Hg]; [now left|].
        right. exists g. split; [exact Hg | reflexivity].
      * apply elem_of_cons in Hg as [->|Hg].
        -- right. exists (b', vs). split; [left | reflexivity].
        -- destruct (IH g Hg) as [?|(g' & Hg' & E)]; [now left|].
           right. exists g'. split; [now right | exact E].
Qed.

Lemma group_insert_sorted b (v : V) groups :
  StronglySorted (fun a c => (fst a < fst c)%Z) groups ->
  StronglySorted (fun a c => (fst a < fst c)%Z) (group_insert b v groups).
Proof.
  induction 1 as [|[b' vs] groups Hs IH Hy]; cbn.
  - repeat constructor.
  - destruct (Z.eqb_spec b b') as [->|Hne].
    + constructor; [exact Hs | exact Hy].
    + destruct (Z.ltb_spec b b') as [Hlt|Hge].
      * constructor; [now constructor|]. constructor; [exact Hlt|].
        eapply Forall_impl; [exact Hy|]. cbn. intros z Hz. lia.
      * constructor; [exact IH|].
        apply Forall_forall. intros g Hg. cbn.
        destruct (group_insert_keys b v groups g Hg) as [->|(g' & Hg' & <-)].
        -- lia.
        -- rewrite Forall_forall in Hy. now apply (Hy g').
Qed.

Lemma values_of_group_insert b (v : V) groups b' :
  StronglySorted (fun a c => (fst a < fst c)%Z) groups ->
  values_of b' (group_insert b v groups)
  = if (b' =? b)%Z then v :: values_of b groups else values_of b' groups.
Proof.
  induction 1 as [|[b0 vs] groups Hs IH Hy]; cbn.
  - reflexivity.
  - destruct (Z.eqb_spec b b0) as [->|Hne]; cbn.
    + destruct (Z.eqb_spec b' b0); reflexivity.
    + destruct (Z.ltb_spec b b0) as [Hlt|Hge]; cbn.
      * destruct (Z.eqb_spec b' b) as [->|Hne'].
        -- rewrite values_of_below; [reflexivity|].
           eapply Forall_impl; [exact Hy|]. cbn. intros z Hz. lia.
        -- reflexivity.
      * destruct (Z.eqb_spec b' b0) as [->|Hne'].
        -- destruct (Z.eqb_spec b0 b); [lia | reflexivity].
        -- exact IH.
Qed.

Lemma group_insert_has_key b (v : V) groups :
  b ∈ (group_insert b v groups).*1
  /\ forall k, k ∈ groups.*1 -> k ∈ (group_insert b v groups).*1.
Proof.
  induction groups as [|[b' vs] groups [IH1 IH2]]; cbn.
  - split; [left | intros k Hk; inversion Hk].
  - destruct (Z.eqb_spec b b') as [->|Hne]; cbn.
    + split; [left | auto].
    + destruct (b <? b')%Z; cbn.
      * split; [left | intros k Hk; now right].
      * split; [now right|]. intros k Hk.
        apply elem_of_cons in Hk as [->|Hk]; [left | right; auto].
Qed.

Lemma group_by_bucket_sorted interval (records : list (Z * V)) :
  StronglySorted (fun a c => (fst a < fst c)%Z)
    (group_by_bucket interval records).
Proof.
  induction records as [|row records IH]; cbn; [constructor|].
  now apply group_insert_sorted.
Qed.

Lemma group_by_bucket_values interval (records : list (Z * V)) b :
  values_of b (group_by_bucket interval records)
  = bucket_values interval b records.
Proof.
  induction records as [|row records IH]; [reflexivity|].
  cbn [group_by_bucket foldr]. fold (group_by_bucket interval records).
  rewrite values_of_group_insert by apply group_by_bucket_sorted.
  unfold bucket_values. rewrite filter_cons.
  destruct (Z.eqb_spec b (time_bucket interval (fst row))) as [->|Hne].
  - rewrite decide_True by reflexivity. cbn. f_equal. exact IH.
  - rewrite decide_False by congruence. exact IH.
Qed.

Lemma group_by_bucket_keys interval (records : list (Z * V)) b :
  b ∈ (group_by_bucket interval records).*1
  <-> exists row, row ∈ records /\ time_bucket interval (fst row) = b.
Proof.
  induction records as [|row records IH].
  - cbn. split; [intros H; inversion H | intros (? & H & _); inversion H].
  - cbn [group_by_bucket foldr]. fold (group_by_bucket interval records).
    split.
    + intros Hb. apply list_elem_of_fmap in Hb as (g & -> & Hg).
      destruct (group_insert_keys _ _ _ g Hg) as [E|(g' & Hg' & E)].
      * exists row. split; [left | now symmetry].
      * assert (Hin : fst g ∈ (group_by_bucket interval records).*1).
        { rewrite <- E. apply list_elem_of_fmap. eauto. }
        apply IH in Hin as (row' & Hrow' & E'). exists row'.
        split; [now right | exact E'].
    + intros (row' & Hrow' & <-).
      destruct (group_insert_has_key (time_bucket interval (fst row))
                  (snd row) (group_by_bucket interval records)) as [H1 H2].
      apply elem_of_cons in Hrow' as [->|Hrow']; [exact H1|].
      apply H2, IH. eauto.
Qed.

Lemma sorted_group_member groups b vs :
  StronglySorted (fun a c => (fst a < fst c)%Z) groups ->
  (b, vs) ∈ groups <-> b ∈ groups.*1 /\ vs = values_of b groups.
Proof.
  induction 1 as [|[b0 vs0] groups Hs IH Hy]; cbn.
  - split; [intros H; inversion H | intros [H _]; inversion H].
  - rewrite !elem_of_cons, IH.
    assert (Hfresh : b0 ∉ groups.*1).
    { intros Hin. apply list_elem_of_fmap in Hin as (g & E & Hg).
      rewrite Forall_forall in Hy. specialize (Hy g Hg). cbn in Hy. lia. }
    destruct (Z.eqb_spec b b0) as [->|Hne].
    + split.
      * intros [[= ->]|[Hin _]]; [auto | contradiction].
      * intros [_ ->]. now left.
    + split.
      * intros [[= ? ?]|[Hin ->]]; [contradiction | auto].
      * intros [[?|Hin] ->]; [contradiction | auto].
Qed.

End Grouping.

Lemma time_bucket_bounds interval ts :
  (0 < interval)%Z ->
  (time_bucket interval ts <= ts < time_bucket interval ts + interval)%Z.
Proof.
  intros H. unfold time_bucket.
  pose proof (Z.mul_div_le (ts - bucket_origin) interval H).
  pose proof (Z.mul_succ_div_gt (ts - bucket_origin) interval H).
  lia.
Qed.

Lemma Resolution_interval_pos r : (0 < Resolution_interval r)%Z.
Proof. destruct r; reflexivity. Qed.

(** X13: on a well-formed request for a relation that exists, the body of
    [get_raw_data] is the rows of the relation whose timestamp lies in the
    closed range, each once, by strictly ascending timestamp. *)
Theorem raw_data_is_the_sorted_range {V}
    (fromisoformat : str -> outcome Z) (db : gmap string (table V))
    table_name start_time end_time tb start_dt end_dt body :
  parse_time fromisoformat start_time = Returned start_dt ->
  parse_time fromisoformat end_time = Returned end_dt ->
  db !! TableName_value table_name = Some tb ->
  get_raw_data fromisoformat db table_name start_time end_time = OK body ->
  StronglySorted (fun a b => (fst a < fst b)%Z) body
  /\ forall k v,
       (k, v) ∈ body
       <-> rows tb !! k = Some v /\ (start_dt <= k <= end_dt)%Z.
Proof.
  intros Hs He Hdb.
  destruct (fetch_range_records db _ tb start_dt end_dt Hdb)
    as (records & Hf & Hsorted & Hmem).
  unfold get_raw_data. rewrite Hs, He, Hf.
  destruct (is_empty records); [discriminate|].
  intros [= <-]. split; assumption.
Qed.

(** The relation with two rows and a range that holds them. *)
Lemma raw_data_witness :
  StronglySorted (fun a b => (fst a < fst b)%Z)
    [(673142400000000%Z, 50 # 1); (673142401000000%Z, 101 # 2)]
  /\ forall k v,
       (k, v) ∈ [(673142400000000%Z, 50 # 1); (673142401000000%Z, 101 # 2)]
       <-> rows {| hypertable := true;
                   rows := {[ 673142400000000%Z := 50 # 1;
                              673142401000000%Z := 101 # 2 ]} |} !! k
           = Some v
           /\ (673142400000000 <= k <= 673142402000000)%Z.
Proof.
  apply (raw_data_is_the_sorted_range fromisoformat_utc measured
           Main.swissgrid_frequency_data
           (lit "2021-05-01T00:00:00Z") (lit "2021-05-01T00:00:02Z"));
    reflexivity.
Defined.

(** X14: on a well-formed request for a relation that exists, the body of
    [get_aggregated_data] has one entry for each bucket that holds a row of
    the range, by strictly ascending bucket; its value is [AVG] of the
    values of the rows of that bucket, and every row of the range lies in
    the bucket that starts at or before it and ends after it. *)
Theorem aggregated_data_is_the_bucket_averages {V}
    (fromisoformat : str -> outcome Z) (AVG : list V -> V)
    (db : gmap string (table V)) table_name start_time end_time resolution
    tb start_dt end_dt body :
  parse_time fromisoformat start_time = Returned start_dt ->
  parse_time fromisoformat end_time = Returned end_dt ->
  db !! TableName_value table_name = Some tb ->
  get_aggregated_data fromisoformat AVG db table_name start_time end_time
    resolution = OK body ->
  exists records,
    fetch_range db (TableName_value table_name) start_dt end_dt
    = Returned records
    /\ StronglySorted (fun a b => (fst a < fst b)%Z) body
    /\ (forall b a,
           (b, a) ∈ body
           <-> (exists row,
                   row ∈ records
                   /\ time_bucket (Resolution_interval resolution) (fst row)
                      = b)
               /\ a = AVG (bucket_values (Resolution_interval resolution)
                             b records))
    /\ (forall row,
           row ∈ records ->
           (time_bucket (Resolution_interval resolution) (fst row)
            <= fst row
            < time_bucket (Resolution_interval resolution) (fst row)
              + Resolution_interval resolution)%Z).
Proof.
  intros Hs He Hdb.
  destruct (fetch_range_records db _ tb start_dt end_dt Hdb)
    as (records & Hf & _ & _).
  unfold get_aggregated_data, fetch_buckets. rewrite Hs, He, Hf.
  cbn [mbind outcome_bind].
  set (interval := Resolution_interval resolution).
  set (groups := group_by_bucket interval records).
  pose proof (group_by_bucket_sorted interval records) as Hsorted.
  fold groups in Hsorted.
  destruct (is_empty _); [discriminate|]. intros [= <-].
  exists records. split; [reflexivity|]. split; [|split].
  - clear -Hsorted. induction Hsorted as [|g gs Hs IH Hy]; cbn; constructor.
    + exact IH.
    + apply Forall_map. eapply Forall_impl; [exact Hy|]. cbn. auto.
  - intros b a. rewrite <- (group_by_bucket_keys interval records b).
    rewrite <- (group_by_bucket_values interval records b).
    fold groups. split.
    + intros Hin. apply list_elem_of_fmap in Hin as ([b' vs] & [= -> ->] & Hg).
      apply (sorted_group_member groups b' vs Hsorted) in Hg as [Hk ->].
      auto.
    + intros [Hk ->].
      apply list_elem_of_fmap. exists (b, values_of b groups).
      split; [reflexivity|].
      now apply (sorted_group_member groups b _ Hsorted).
  - intros row _. apply time_bucket_bounds, Resolution_interval_pos.
Qed.

(** The relation with two rows, in buckets of fifteen minutes. *)
Lemma aggregated_data_witness :
  exists records,
    fetch_range measured (TableName_value Main.swissgrid_frequency_data)
      673142400000000 673142402000000
    = Returned records
    /\ StronglySorted (fun a b => (fst a < fst b)%Z)
         [(673142400000000%Z, 201 # 4)]
    /\ (forall b a,
           (b, a) ∈ [(673142400000000%Z, 201 # 4)]
           <-> (exists row,
                   row ∈ records
                   /\ time_bucket (Resolution_interval m15) (fst row) = b)
               /\ a = mean (bucket_values (Resolution_interval m15) b records))
    /\ (forall row,
           row ∈ records ->
           (time_bucket (Resolution_interval m15) (fst row)
            <= fst row
            < time_bucket (Resolution_interval m15) (fst row)
              + Resolution_interval m15)%Z).
Proof.
  apply (aggregated_data_is_the_bucket_averages fromisoformat_utc mean measured
           Main.swissgrid_frequency_data
           (lit "2021-05-01T00:00:00Z") (lit "2021-05-01T00:00:02Z") m15
           {| hypertable := true;
              rows := {[ 673142400000000%Z := 50 # 1;
                         673142401000000%Z := 101 # 2 ]} |});
    reflexivity.
Defined.

(** X15: a range whose start lies after its end holds no row: on a relation
    that exists both read operations answer 404, not 400. *)
Theorem reversed_range_is_not_found {V}
    (fromisoformat : str -> outcome Z) (AVG : list V -> V)
    (db : gmap string (table V)) table_name start_time end_time resolution
    tb start_dt end_dt :
  parse_time fromisoformat start_time = Returned start_dt ->
  parse_time fromisoformat end_time = Returned end_dt ->
  db !! TableName_value table_name = Some tb ->
  (end_dt < start_dt)%Z ->
  get_raw_data fromisoformat db table_name start_time end_time
  = HTTPException 404
  /\ get_aggregated_data fromisoformat AVG db table_name start_time end_time
       resolution
     = HTTPException 404.
Proof.
  intros Hs He Hdb Hlt.
  destruct (fetch_range_is_empty db _ tb start_dt end_dt Hdb)
    as (records & Hf & Hrow).
  unfold get_raw_data, get_aggregated_data, fetch_buckets.
  rewrite Hs, He, Hf. cbn [mbind outcome_bind].
  rewrite map_is_empty, group_by_bucket_is_empty.
  destruct (is_empty records) eqn:Ee; [split; reflexivity|].
  destruct (proj1 Hrow eq_refl) as (k & v & _ & Hk). lia.
Qed.

(** The relation with two rows and a range given backwards. *)
Lemma reversed_range_witness :
  get_raw_data fromisoformat_utc measured Main.swissgrid_frequency_data
    (lit "2021-05-01T00:00:02Z") (lit "2021-05-01T00:00:00Z")
  = HTTPException 404
  /\ get_aggregated_data fromisoformat_utc mean measured
       Main.swissgrid_frequency_data
       (lit "2021-05-01T00:00:02Z") (lit "2021-05-01T00:00:00Z") m15
     = HTTPException 404.
Proof.
  apply (reversed_range_is_not_found fromisoformat_utc mean measured
           Main.swissgrid_frequency_data
           (lit "2021-05-01T00:00:02Z") (lit "2021-05-01T00:00:00Z") m15
           {| hypertable := true;
              rows := {[ 673142400000000%Z := 50 # 1;
                         673142401000000%Z := 101 # 2 ]} |}
           673142402000000 673142400000000); reflexivity.
Defined.

(** ** [src/generate_test_data.py] *)

Import Generator.

Lemma all_from_spec check n :
  forall z, all_from check n z = true ->
            forall i, (z <= i < z + Z.of_nat n)%Z -> check i = true.
Proof.
  induction n as [|n IH]; intros z H i Hi; [lia|].
  cbn in H. apply andb_prop in H as [H0 H1].
  destruct (Z.eq_dec i z) as [->|Hne]; [exact H0|].
  apply (IH (z + 1)%Z H1). lia.
Qed.

(** Two digits for every number below 100. *)
Lemma zero_pad_two n : n < 100 -> digits 2 (zero_pad 2 n).
Proof.
  intros Hn.
  assert (H : forallb (fun n => Nat.eqb (length (zero_pad 2 n)) 2
                                && forallb isdigit (zero_pad 2 n))
                (seq 0 100) = true) by (vm_compute; reflexivity).
  rewrite forallb_forall in H.
  specialize (H n). rewrite in_seq in H.
  destruct (andb_prop _ _ (H ltac:(lia))) as [Hl Hd].
  split; [now apply Nat.eqb_eq|].
  apply Forall_forall. intros c Hc. rewrite forallb_forall in Hd.
  apply Hd. now apply list_elem_of_In.
Qed.

(** The years 2000 to 2099 are written [20] and their last two digits. *)
Lemma zero_pad_year y :
  2000 <= y <= 2099 -> zero_pad 4 y = lit "20" ++ zero_pad 2 (y mod 100).
Proof.
  intros Hy.
  assert (H : forallb (fun k => bool_decide
                                  (zero_pad 4 (2000 + k)
                                   = lit "20" ++ zero_pad 2 ((2000 + k) mod 100)))
                (seq 0 100) = true) by (vm_compute; reflexivity).
  rewrite forallb_forall in H.
  specialize (H (y - 2000)). rewrite in_seq in H.
  specialize (H ltac:(lia)). apply bool_decide_eq_true in H.
  now replace (2000 + (y - 2000)) with y in H by lia.
Qed.

(** The month and the day of a civil date are in range. *)
Lemma civil_from_days_bounds z :
  let '(y, m, d) := civil_from_days z in
  (1 <= m <= 12)%Z /\ (1 <= d <= 31)%Z.
Proof.
  set (check := fun doe : Z =>
    let yoe := ((doe - doe / 1460 + doe / 36524 - doe / 146096) / 365)%Z in
    let doy := (doe - (365 * yoe + yoe / 4 - yoe / 100))%Z in
    let mp := ((5 * doy + 2) / 153)%Z in
    let d := (doy - (153 * mp + 2) / 5 + 1)%Z in
    let m := if (mp <? 10)%Z then (mp + 3)%Z else (mp - 9)%Z in
    ((1 <=? m) && (m <=? 12) && (1 <=? d) && (d <=? 31))%Z).
  assert (H : all_from check (Z.to_nat 146097) 0 = true)
    by (vm_compute; reflexivity).
  pose proof (all_from_spec check _ _ H) as Hall.
  unfold civil_from_days. cbv zeta.
  set (doe := ((z + 719468) - (z + 719468) / 146097 * 146097)%Z).
  assert (Hdoe : (0 <= doe < 0 + Z.of_nat (Z.to_nat 146097))%Z).
  { unfold doe. pose proof (Z.mod_pos_bound (z + 719468) 146097 eq_refl).
    rewrite Z.mod_eq in H0 by lia. lia. }
  specialize (Hall doe Hdoe). unfold check in Hall. cbv zeta in Hall.
  repeat (apply andb_prop in Hall as [Hall ?]). lia.
Qed.

(** An instant of the years 2000 to 2099 has its year in that range. *)
Lemma century_year t :
  (century_start <= t < century_end)%Z ->
  2000 <= year (datetime_of t) <= 2099.
Proof.
  intros Ht.
  set (check := fun z : Z =>
    let '(y, _, _) := civil_from_days z in ((2000 <=? y) && (y <=? 2099))%Z).
  assert (H : all_from check (Z.to_nat 36525) 10957 = true)
    by (vm_compute; reflexivity).
  pose proof (all_from_spec check _ _ H (t / 86400)%Z) as Hall.
  unfold century_start, century_end in Ht.
  assert (Hd : (10957 <= t / 86400 < 10957 + Z.of_nat (Z.to_nat 36525))%Z).
  { split.
    - apply Z.div_le_lower_bound; lia.
    - apply Z.div_lt_upper_bound; lia. }
  specialize (Hall Hd). unfold check in Hall.
  unfold datetime_of.
  destruct (civil_from_days (t / 86400)) as [[y m] d]. cbn [year].
  apply andb_prop in Hall as [H1 H2]. lia.
Qed.
